(** * messageBroker.ts: the queue-backed RPC and notification dispatcher

    A shallow embedding of [src/messageBroker.ts].  JavaScript values are
    a first-order data type; the amqplib channel, the promise of an RPC
    call and every external collaborator are observed through the trace
    of operations the code performs on them, in program order.  An
    exception (or the rejection of an awaited promise) is an outcome of
    the computation, so that what is skipped after a failure can be read
    off the trace. *)

From Stdlib Require Import String Ascii List ZArith Bool.
From Stdlib Require Import DecimalString.
Import ListNotations.
Local Open Scope list_scope.
Local Open Scope string_scope.
Set Warnings "-register-all".

(** ** JavaScript values *)

Module JS.

(** Numbers.  Only the doubles that are integers, the two infinities,
    the negative zero and NaN are represented; a fractional number has
    no counterpart here. *)
Inductive number : Type :=
| NaN
| Infinity (negative : bool)
| NegZero
| Int (z : Z).

(** The values the program handles: what JSON can hold, [undefined],
    and [VError name message], an instance of [Error] (or of a
    subclass, [name] being the class), which has no enumerable property
    of its own.  Functions, symbols and the like are not represented. *)
Inductive value : Type :=
| VUndefined
| VNull
| VBool (b : bool)
| VNum (n : number)
| VStr (s : string)
| VArr (items : list value)
| VObj (fields : list (string * value))
| VError (name message : string).

(** The result of evaluating an expression or of awaiting a promise:
    a value, or an exception thrown (a rejection, when awaited). *)
Inductive outcome (A : Type) : Type :=
| Ok (a : A)
| Throw (e : value).
Arguments Ok {A} a.
Arguments Throw {A} e.

Definition TypeError (message : string) : value := VError "TypeError" message.
Definition SyntaxError (message : string) : value := VError "SyntaxError" message.

(** [new Error(message)] *)
Definition new_Error (message : string) : value := VError "Error" message.

(** ToBoolean: the falsy values are [undefined], [null], [false], [0],
    [-0], [NaN] and the empty string. *)
Definition truthy (v : value) : bool :=
  match v with
  | VUndefined | VNull => false
  | VBool b => b
  | VNum NaN | VNum NegZero => false
  | VNum (Int z) => negb (Z.eqb z 0)
  | VNum (Infinity _) => true
  | VStr s => negb (String.eqb s EmptyString)
  | VArr _ | VObj _ | VError _ _ => true
  end.

Definition falsy (v : value) : bool := negb (truthy v).

(** [a || b] *)
Definition or_else (a b : value) : value := if truthy a then a else b.

(** [v === 'literal'] *)
Definition strict_eq_str (v : value) (s : string) : bool :=
  match v with
  | VStr t => String.eqb t s
  | _ => false
  end.

Fixpoint lookup (k : string) (fields : list (string * value)) : option value :=
  match fields with
  | [] => None
  | (k', v) :: rest => if String.eqb k' k then Some v else lookup k rest
  end.

(** [v.k], for the property names the program reads ([status], [data],
    [errorMessage], [name], [action], [message], ...): none of them is
    inherited by a plain object, an array or a primitive.  Reading a
    property of [undefined] or [null] throws. *)
Definition get (v : value) (k : string) : outcome value :=
  match v with
  | VUndefined => Throw (TypeError ("Cannot read property '" ++ k ++ "' of undefined"))
  | VNull => Throw (TypeError ("Cannot read property '" ++ k ++ "' of null"))
  | VObj fields =>
      match lookup k fields with
      | Some x => Ok x
      | None => Ok VUndefined
      end
  | VError name message =>
      if String.eqb k "message" then Ok (VStr message)
      else if String.eqb k "name" then Ok (VStr name)
      else Ok VUndefined
  | _ => Ok VUndefined
  end.

(** [delete v.k]: removes an own property of an object, does nothing on
    a primitive, throws on [undefined] and [null]. *)
Definition delete (v : value) (k : string) : outcome value :=
  match v with
  | VUndefined => Throw (TypeError ("Cannot convert undefined or null to object"))
  | VNull => Throw (TypeError ("Cannot convert undefined or null to object"))
  | VObj fields => Ok (VObj (filter (fun kv => negb (String.eqb (fst kv) k)) fields))
  | _ => Ok v
  end.

Definition Z_to_string (z : Z) : string := NilZero.string_of_int (Z.to_int z).

Fixpoint drop_zeros (digits : list ascii) : list ascii :=
  match digits with
  | "0"%char :: rest => drop_zeros rest
  | _ => digits
  end.

(** The exponent form of a positive integer given by its digits:
    [d.ddd] without trailing zeros, then [e+] and the exponent. *)
Definition exponent_form (digits : string) : string :=
  match rev (drop_zeros (rev (list_ascii_of_string digits))) with
  | [] => "0"
  | d :: [] =>
      String d ("e+" ++ Z_to_string (Z.of_nat (String.length digits - 1)))
  | d :: more =>
      String d ("." ++ string_of_list_ascii more
                ++ "e+" ++ Z_to_string (Z.of_nat (String.length digits - 1)))
  end.

(** An integer printed by its own digits: as they are below 10^21, in
    exponent form from there on (10^21 is '1e+21').  Beyond 2^53 these
    are the digits JavaScript prints only for the integers whose
    shortest decimal form they are; the examples take this for the
    [Number_toString] of their environment. *)
Definition large_integer_to_string (z : Z) : string :=
  if Z.ltb (Z.abs z) (10 ^ 21) then Z_to_string z
  else if Z.ltb z 0 then "-" ++ exponent_form (Z_to_string (Z.abs z))
  else exponent_form (Z_to_string z).

(** Number::toString.  Up to 2^53 an integer is printed by its digits;
    beyond, the digits are shortened by the platform, [large] standing
    for what it prints. *)
Definition number_to_string (large : Z -> string) (n : number) : string :=
  match n with
  | NaN => "NaN"
  | Infinity false => "Infinity"
  | Infinity true => "-Infinity"
  | NegZero => "0"
  | Int z => if Z.leb (Z.abs z) (2 ^ 53) then Z_to_string z else large z
  end.

Fixpoint join (sep : string) (parts : list string) : string :=
  match parts with
  | [] => EmptyString
  | [p] => p
  | p :: rest => p ++ sep ++ join sep rest
  end.

(** ToString, as a template literal and a computed property key apply
    it.  An object is converted by its [toString]: the inherited one
    gives '[object Object]'; an own property of that name, which in
    these values is never a function, leaves nothing to convert with
    and the conversion throws.  An array joins the conversions of its
    items, [undefined] and [null] counting as empty. *)
Fixpoint to_string (large : Z -> string) (v : value) : outcome string :=
  match v with
  | VUndefined => Ok "undefined"
  | VNull => Ok "null"
  | VBool true => Ok "true"
  | VBool false => Ok "false"
  | VNum n => Ok (number_to_string large n)
  | VStr s => Ok s
  | VArr items =>
      match
        (fix convert (xs : list value) : outcome (list string) :=
           match xs with
           | [] => Ok []
           | x :: rest =>
               match match x with
                     | VUndefined | VNull => Ok EmptyString
                     | _ => to_string large x
                     end with
               | Ok part =>
                   match convert rest with
                   | Ok parts => Ok (part :: parts)
                   | Throw e => Throw e
                   end
               | Throw e => Throw e
               end
           end) items
      with
      | Ok parts => Ok (join "," parts)
      | Throw e => Throw e
      end
  | VObj fields =>
      match lookup "toString" fields with
      | Some _ => Throw (TypeError "Cannot convert object to primitive value")
      | None => Ok "[object Object]"
      end
  | VError name message =>
      if String.eqb name EmptyString then Ok message
      else if String.eqb message EmptyString then Ok name
      else Ok (name ++ ": " ++ message)
  end.

(** The values a [for (const x of v)] loop runs through; a value that is
    not iterable throws. *)
Definition iterate (v : value) : outcome (list value) :=
  match v with
  | VArr items => Ok items
  | VStr s => Ok (map (fun c => VStr (String c EmptyString)) (list_ascii_of_string s))
  | _ => Throw (TypeError "object is not iterable")
  end.

End JS.
Import JS.

(** ** The JSON codec

    [JSON.stringify] on the values above, and a [JSON.parse] for the
    texts whose numbers are integer literals and whose strings are
    ASCII (any other text is rejected).  The program is modelled over an
    arbitrary decoder, a field of [env] below; the decoder of this
    module is the one the examples run. *)

Module JSON.

Definition dquote : ascii := "034"%char.
Definition backslash : ascii := "092"%char.

Definition str (c : ascii) : string := String c EmptyString.

Definition hex_digit (n : nat) : ascii :=
  ascii_of_nat (if Nat.ltb n 10 then 48 + n else 87 + n).

Definition escape_char (c : ascii) : string :=
  let n := nat_of_ascii c in
  if Ascii.eqb c dquote then String backslash (str dquote)
  else if Ascii.eqb c backslash then String backslash (str backslash)
  else if Nat.eqb n 8 then String backslash "b"
  else if Nat.eqb n 12 then String backslash "f"
  else if Nat.eqb n 10 then String backslash "n"
  else if Nat.eqb n 13 then String backslash "r"
  else if Nat.eqb n 9 then String backslash "t"
  else if Nat.ltb n 32 then
    String backslash ("u00" ++ str (hex_digit (n / 16)) ++ str (hex_digit (n mod 16)))
  else str c.

Fixpoint escape (s : string) : string :=
  match s with
  | EmptyString => EmptyString
  | String c rest => escape_char c ++ escape rest
  end.

Definition quote (s : string) : string := String dquote (escape s ++ str dquote).

(** [JSON.stringify(v)]: [None] is the result [undefined].  Inside an
    array [undefined] is written [null]; a property whose value is
    [undefined] is left out; an [Error] has no enumerable property. *)
Fixpoint stringify (v : value) : option string :=
  match v with
  | VUndefined => None
  | VNull => Some "null"
  | VBool true => Some "true"
  | VBool false => Some "false"
  | VNum (Int z) => Some (Z_to_string z)
  | VNum NegZero => Some "0"
  | VNum NaN | VNum (Infinity _) => Some "null"
  | VStr s => Some (quote s)
  | VArr items =>
      Some ("[" ++ join "," (map (fun x => match stringify x with
                                           | Some t => t
                                           | None => "null"
                                           end) items) ++ "]")
  | VObj fields =>
      Some ("{" ++ join "," (flat_map (fun kv => let '(k, x) := kv in
                                                 match stringify x with
                                                 | Some t => [quote k ++ ":" ++ t]
                                                 | None => []
                                                 end) fields) ++ "}")
  | VError _ _ => Some "{}"
  end.

Definition is_ws (c : ascii) : bool :=
  let n := nat_of_ascii c in
  Nat.eqb n 32 || Nat.eqb n 9 || Nat.eqb n 10 || Nat.eqb n 13.

Fixpoint skip_ws (s : string) : string :=
  match s with
  | String c rest => if is_ws c then skip_ws rest else s
  | EmptyString => s
  end.

Definition hex_value (c : ascii) : option nat :=
  let n := nat_of_ascii c in
  if Nat.leb 48 n && Nat.leb n 57 then Some (n - 48)
  else if Nat.leb 97 n && Nat.leb n 102 then Some (n - 87)
  else if Nat.leb 65 n && Nat.leb n 70 then Some (n - 55)
  else None.

Definition unescape (c : ascii) : option ascii :=
  if Ascii.eqb c dquote then Some dquote
  else if Ascii.eqb c backslash then Some backslash
  else if Ascii.eqb c "/" then Some "/"%char
  else if Ascii.eqb c "b" then Some (ascii_of_nat 8)
  else if Ascii.eqb c "f" then Some (ascii_of_nat 12)
  else if Ascii.eqb c "n" then Some (ascii_of_nat 10)
  else if Ascii.eqb c "r" then Some (ascii_of_nat 13)
  else if Ascii.eqb c "t" then Some (ascii_of_nat 9)
  else None.

(** The characters of a string literal after its opening quote, and the
    text after its closing quote. *)
Fixpoint parse_chars (s : string) : option (string * string) :=
  match s with
  | EmptyString => None
  | String c rest =>
      if Ascii.eqb c dquote then Some (EmptyString, rest)
      else if Ascii.eqb c backslash then
        match rest with
        | String "u" (String h1 (String h2 (String h3 (String h4 rest')))) =>
            match hex_value h1, hex_value h2, hex_value h3, hex_value h4 with
            | Some 0, Some 0, Some a, Some b =>
                if Nat.ltb a 8 then
                  match parse_chars rest' with
                  | Some (t, r) => Some (String (ascii_of_nat (16 * a + b)) t, r)
                  | None => None
                  end
                else None
            | _, _, _, _ => None
            end
        | String e rest' =>
            match unescape e, parse_chars rest' with
            | Some x, Some (t, r) => Some (String x t, r)
            | _, _ => None
            end
        | EmptyString => None
        end
      else if Nat.ltb (nat_of_ascii c) 32 then None
      else
        match parse_chars rest with
        | Some (t, r) => Some (String c t, r)
        | None => None
        end
  end.

Definition is_digit (c : ascii) : bool :=
  let n := nat_of_ascii c in Nat.leb 48 n && Nat.leb n 57.

Fixpoint parse_digits (s : string) (acc : Z) : Z * string :=
  match s with
  | String c rest =>
      if is_digit c then parse_digits rest (10 * acc + Z.of_nat (nat_of_ascii c - 48))%Z
      else (acc, s)
  | EmptyString => (acc, s)
  end.

(** An integer literal: no leading zero, no fraction, no exponent. *)
Definition parse_number (negative : bool) (s : string) : option (value * string) :=
  match s with
  | String c rest =>
      if is_digit c then
        let '(n, r) := if Ascii.eqb c "0" then (0%Z, rest) else parse_digits s 0%Z in
        match r with
        | String d _ =>
            if is_digit d || Ascii.eqb d "." || Ascii.eqb d "e" || Ascii.eqb d "E"
            then None
            else Some (VNum (if negative then
                               if Z.eqb n 0 then NegZero else Int (- n)
                             else Int n), r)
        | EmptyString =>
            Some (VNum (if negative then
                          if Z.eqb n 0 then NegZero else Int (- n)
                        else Int n), r)
        end
      else None
  | EmptyString => None
  end.

Definition expect (word : string) (v : value) (s : string) : option (value * string) :=
  if String.prefix word s
  then Some (v, String.substring (String.length word) (String.length s - String.length word) s)
  else None.

(** A later member replaces the value of an earlier one of the same
    name, at the earlier one's place. *)
Fixpoint set_field (k : string) (v : value) (fields : list (string * value))
  : list (string * value) :=
  match fields with
  | [] => [(k, v)]
  | (k', v') :: rest =>
      if String.eqb k' k then (k', v) :: rest else (k', v') :: set_field k v rest
  end.

Fixpoint parse_value (fuel : nat) (s : string) : option (value * string) :=
  match fuel with
  | O => None
  | S fuel =>
      match skip_ws s with
      | EmptyString => None
      | String c rest =>
          if Ascii.eqb c "{" then
            match skip_ws rest with
            | String "}" r => Some (VObj [], r)
            | _ => parse_members fuel [] rest
            end
          else if Ascii.eqb c "[" then
            match skip_ws rest with
            | String "]" r => Some (VArr [], r)
            | _ => parse_elements fuel [] rest
            end
          else if Ascii.eqb c dquote then
            match parse_chars rest with
            | Some (t, r) => Some (VStr t, r)
            | None => None
            end
          else if Ascii.eqb c "-" then parse_number true rest
          else if Ascii.eqb c "t" then expect "true" (VBool true) (String c rest)
          else if Ascii.eqb c "f" then expect "false" (VBool false) (String c rest)
          else if Ascii.eqb c "n" then expect "null" VNull (String c rest)
          else parse_number false (String c rest)
      end
  end

with parse_elements (fuel : nat) (acc : list value) (s : string)
  : option (value * string) :=
  match fuel with
  | O => None
  | S fuel =>
      match parse_value fuel s with
      | Some (v, r) =>
          match skip_ws r with
          | String "," r' => parse_elements fuel (v :: acc) r'
          | String "]" r' => Some (VArr (rev (v :: acc)), r')
          | _ => None
          end
      | None => None
      end
  end

with parse_members (fuel : nat) (acc : list (string * value)) (s : string)
  : option (value * string) :=
  match fuel with
  | O => None
  | S fuel =>
      match skip_ws s with
      | String c rest =>
          if Ascii.eqb c dquote then
            match parse_chars rest with
            | Some (k, r) =>
                match skip_ws r with
                | String ":" r' =>
                    match parse_value fuel r' with
                    | Some (v, r'') =>
                        match skip_ws r'' with
                        | String "," r3 => parse_members fuel (set_field k v acc) r3
                        | String "}" r3 => Some (VObj (set_field k v acc), r3)
                        | _ => None
                        end
                    | None => None
                    end
                | _ => None
                end
            | None => None
            end
          else None
      | EmptyString => None
      end
  end.

(** [JSON.parse(text)]; a text that is not JSON throws a [SyntaxError]. *)
Definition parse (text : string) : outcome value :=
  match parse_value (S (String.length text)) text with
  | Some (v, rest) =>
      match skip_ws rest with
      | EmptyString => Ok v
      | _ => Throw (SyntaxError "Unexpected token in JSON")
      end
  | None => Throw (SyntaxError "Unexpected token in JSON")
  end.

End JSON.


(** [Buffer.from(s)]: the bytes of a string; [Buffer.from(undefined)]
    throws.  A buffer and the string it holds are identified, so that
    [msg.content.toString()] is [content msg]. *)
Definition Buffer_from (s : option string) : outcome string :=
  match s with
  | Some bytes => Ok bytes
  | None =>
      Throw (TypeError "The first argument must be one of type string, Buffer, ArrayBuffer, Array, or Array-like Object. Received type undefined")
  end.

(** ** Messages, consumers and the trace *)

(** The properties of an AMQP message the program reads or sets. *)
Record message_properties : Type := {
  correlationId : option string;
  replyTo : option string
}.

Definition no_options : message_properties :=
  {| correlationId := None; replyTo := None |}.

(** A delivered message: [msg.content], [msg.fields.deliveryTag] (what
    [channel.ack(msg)] sends back) and [msg.properties]. *)
Record message : Type := {
  content : string;
  deliveryTag : N;
  properties : message_properties
}.

(** The callbacks handed to [channel.consume]: the six of [initConsumer]
    and, for each RPC call, the closure over its promise, its
    correlation id and the name of its reply queue. *)
Inductive consumer : Type :=
| on_rpc_queue
| on_callPublish
| on_widgetNotification
| on_integrationsNotification
| on_set_donot_disturb
| on_sparkNotification
| on_rpc_reply (promise : nat) (correlationId : string) (queue : string).

(** The imported functions and objects the program calls. *)
Inductive collaborator : Type :=
| amqplib_connect
| connection_createChannel
| receiveIntegrationsNotification
| receiveRpcMessage
| conversationNotifReceivers
| registerOnboardHistory
| sendMobileNotification
| ActivityLogs_createLogFromWidget
| Conversations_findOne
| Conversations_changeCustomerStatus
| Customers_updateOne
| Integrations_findOne
| RobotEntries_createEntry
| Users_findOne
| debugBase
| graphqlPubsub_publish
| redis_get
| redis_set.

(** What the program does to the outside, in the order it does it. *)
Inductive event : Type :=
| EAssertQueue (queue : string) (exclusive : bool)
| EConsume (queue : string) (callback : consumer) (noAck : bool)
| ESendToQueue (queue : option string) (body : string) (options : message_properties)
| EAck (msg : message)
| EDeleteQueue (queue : string)
| ENewPromise (promise : nat)
| EResolve (promise : nat) (v : value)
| EReject (promise : nat) (reason : value)
| ECall (f : collaborator) (args : list value).

(** The environment of the process: its variables, the decoder, what
    the platform prints for an integer beyond 2^53, and how each call
    of a collaborator ends ([Throw] is an exception or a rejected
    promise). *)
Record env : Type := {
  NODE_ENV : option string;
  RABBITMQ_HOST : option string;
  JSON_parse : string -> outcome value;
  Number_toString : Z -> string;
  extern : collaborator -> list value -> outcome value
}.

(** ** Computations: a trace and an outcome *)

Definition M (A : Type) : Type := (list event * outcome A)%type.

Definition ret {A} (a : A) : M A := ([], Ok a).

Definition bind {A B} (m : M A) (k : A -> M B) : M B :=
  match m with
  | (t, Ok a) => let '(t', r) := k a in ((t ++ t')%list, r)
  | (t, Throw e) => (t, Throw e)
  end.

Notation "x <- m ;; k" := (bind m (fun x => k))
  (at level 61, m at next level, right associativity).
Notation "m ;; k" := (bind m (fun _ => k))
  (at level 61, right associativity).

Definition emit (e : event) : M unit := ([e], Ok tt).

(** The value of an expression that may throw. *)
Definition eval {A} (o : outcome A) : M A := ([], o).

(** [try { m } catch (e) { handler e }] *)
Definition try_catch {A} (m : M A) (handler : value -> M A) : M A :=
  match m with
  | (t, Throw e) => let '(t', r) := handler e in ((t ++ t')%list, r)
  | done => done
  end.

(** A promise chain nobody awaits: what it does is done, how it ends is
    lost. *)
Definition detached {A} (m : M A) : M unit := (fst m, Ok tt).

Fixpoint for_each {A} (xs : list A) (body : A -> M unit) : M unit :=
  match xs with
  | [] => ret tt
  | x :: rest => body x ;; for_each rest body
  end.

Definition events {A} (m : M A) : list event := fst m.
Definition result {A} (m : M A) : outcome A := snd m.

(** ** The program *)

Module Broker.

Section Program.

Variable E : env.

(** A call whose result the program awaits or uses. *)
Definition call (f : collaborator) (args : list value) : M value :=
  ([ECall f args], extern E f args).

(** A call whose result the program drops: were the returned promise
    rejected, nothing would notice. *)
Definition fire (f : collaborator) (args : list value) : M unit :=
  emit (ECall f args).

(** [a === 'literal'], for [a] a string or [undefined] (an environment
    variable, a message property). *)
Definition same_string (a : option string) (b : string) : bool :=
  match a with
  | Some s => String.eqb s b
  | None => false
  end.

(** ToString, as the template literals and the computed property key
    of [receiveWidgetNotification] apply it. *)
Definition ToString (v : value) : outcome string :=
  to_string (Number_toString E) v.

(** [const receiveWidgetNotification = async ({ action, data }) => ...] *)
Definition receiveWidgetNotification (arg : value) : M unit :=
  action <- eval (get arg "action") ;;
  data <- eval (get arg "data") ;;
  if same_string (NODE_ENV E) "test" then ret tt
  else
    (if strict_eq_str action "callPublish" then
       trigger <- eval (get data "trigger") ;;
       (if strict_eq_str trigger "conversationMessageInserted" then
          payload <- eval (get data "payload") ;;
          customerId <- eval (get payload "customerId") ;;
          conversationId <- eval (get payload "conversationId") ;;
          content <- eval (get payload "content") ;;
          conversation <- call Conversations_findOne
            [VObj [("_id", conversationId)];
             VObj [("integrationId", VNum (Int 1));
                   ("participatedUserIds", VNum (Int 1));
                   ("assignedUserId", VNum (Int 1))]] ;;
          key <- eval (ToString customerId) ;;
          customerLastStatus <- call redis_get
            [VStr ("customer_last_status_" ++ key)] ;;
          if truthy conversation then
            (if strict_eq_str customerLastStatus "left" then
               key <- eval (ToString customerId) ;;
               fire redis_set
                 [VStr ("customer_last_status_" ++ key); VStr "joined"] ;;
               integrationId <- eval (get conversation "integrationId") ;;
               conversationMessages <- call Conversations_changeCustomerStatus
                 [VStr "joined"; customerId; integrationId] ;;
               messages <- eval (iterate conversationMessages) ;;
               for_each messages (fun message =>
                 fire graphqlPubsub_publish
                   [VStr "conversationMessageInserted";
                    VObj [("conversationMessageInserted", message)]]) ;;
               fire graphqlPubsub_publish
                 [VStr "customerConnectionChanged";
                  VObj [("customerConnectionChanged",
                         VObj [("_id", customerId); ("status", VStr "connected")])]]
             else ret tt) ;;
            receivers <- call conversationNotifReceivers [conversation; customerId] ;;
            fire sendMobileNotification
              [VObj [("title", VStr "You have a new message");
                     ("body", content);
                     ("customerId", customerId);
                     ("conversationId", conversationId);
                     ("receivers", receivers)]]
          else ret tt
        else ret tt) ;;
       trigger <- eval (get data "trigger") ;;
       name <- eval (get data "trigger") ;;
       key <- eval (ToString name) ;;
       payload <- eval (get data "payload") ;;
       fire graphqlPubsub_publish [trigger; VObj [(key, payload)]]
     else ret tt) ;;
    (if strict_eq_str action "activityLog" then
       type <- eval (get data "type") ;;
       payload <- eval (get data "payload") ;;
       fire ActivityLogs_createLogFromWidget [type; payload]
     else ret tt) ;;
    (if strict_eq_str action "leadInstalled" then
       payload <- eval (get data "payload") ;;
       integrationId <- eval (get payload "integrationId") ;;
       integration <- call Integrations_findOne [VObj [("_id", integrationId)]] ;;
       if negb (truthy integration) then ret tt
       else
         createdUserId <- eval (get integration "createdUserId") ;;
         user <- call Users_findOne [VObj [("_id", createdUserId)]] ;;
         if negb (truthy user) then ret tt
         else
           fire registerOnboardHistory
             [VObj [("type", VStr "leadIntegrationInstalled"); ("user", user)]]
     else ret tt).

(** The callback [sendRPCMessage] subscribes to its reply queue [q]:
    [msg => { ... }], closed over [resolve], [reject] (of promise [p]),
    [correlationId] and [q]. *)
Definition rpc_reply (p : nat) (correlationId' : string) (q : string)
    (msg : option message) : M unit :=
  match msg with
  | None => emit (EReject p (new_Error "consumer cancelled by rabbitmq"))
  | Some msg =>
      if same_string (correlationId (properties msg)) correlationId' then
        res <- eval (JSON_parse E (content msg)) ;;
        status <- eval (get res "status") ;;
        (if strict_eq_str status "success" then
           data <- eval (get res "data") ;;
           emit (EResolve p data)
         else
           errorMessage <- eval (get res "errorMessage") ;;
           emit (EReject p errorMessage)) ;;
        emit (EDeleteQueue q)
      else ret tt
  end.

(** [sendRPCMessage(message)].  [p] names the promise the call creates,
    [correlationId'] is what [uuid()] returns and [q] the name the broker
    gives the queue declared with the empty name. *)
Definition sendRPCMessage (p : nat) (correlationId' : string) (q : string)
    (message : value) : M unit :=
  emit (ENewPromise p) ;;
  emit (EAssertQueue EmptyString true) ;;
  emit (EConsume q (on_rpc_reply p correlationId' q) true) ;;
  body <- eval (Buffer_from (JSON.stringify message)) ;;
  emit (ESendToQueue (Some "rpc_queue:erxes-api") body
          {| correlationId := Some correlationId'; replyTo := Some q |}).

(** [sendMessage(queueName, data)]; an omitted [data] is [undefined]. *)
Definition sendMessage (queueName : string) (data : value) : M unit :=
  emit (EAssertQueue queueName false) ;;
  body <- eval (Buffer_from (JSON.stringify (or_else data (VObj [])))) ;;
  emit (ESendToQueue (Some queueName) body no_options).

(** The callbacks of [initConsumer], each [async msg => { if (msg !==
    null) { ... } }]. *)

Definition rpc_queue (msg : option message) : M unit :=
  match msg with
  | None => ret tt
  | Some msg =>
      fire debugBase [VStr ("Received rpc queue message " ++ content msg)] ;;
      parsed <- eval (JSON_parse E (content msg)) ;;
      response <- call receiveRpcMessage [parsed] ;;
      body <- eval (Buffer_from (JSON.stringify response)) ;;
      emit (ESendToQueue (replyTo (properties msg)) body
              {| correlationId := correlationId (properties msg); replyTo := None |}) ;;
      emit (EAck msg)
  end.

Definition callPublish (msg : option message) : M unit :=
  match msg with
  | None => ret tt
  | Some msg =>
      params <- eval (JSON_parse E (content msg)) ;;
      name <- eval (get params "name") ;;
      data <- eval (get params "data") ;;
      fire graphqlPubsub_publish [name; data] ;;
      emit (EAck msg)
  end.

Definition widgetNotification (msg : option message) : M unit :=
  match msg with
  | None => ret tt
  | Some msg =>
      parsed <- eval (JSON_parse E (content msg)) ;;
      receiveWidgetNotification parsed ;;
      emit (EAck msg)
  end.

Definition integrationsNotification (msg : option message) : M unit :=
  match msg with
  | None => ret tt
  | Some msg =>
      parsed <- eval (JSON_parse E (content msg)) ;;
      call receiveIntegrationsNotification [parsed] ;;
      emit (EAck msg)
  end.

Definition set_donot_disturb (msg : option message) : M unit :=
  match msg with
  | None => ret tt
  | Some msg =>
      data <- eval (JSON_parse E (content msg)) ;;
      customerId <- eval (get data "customerId") ;;
      call Customers_updateOne
        [VObj [("_id", customerId)];
         VObj [("$set", VObj [("doNotDisturb", VStr "Yes")])]] ;;
      emit (EAck msg)
  end.

(** [createEntry(data).then(...).catch(...)] is not awaited: the message
    is acknowledged first, the chain logs when the entry is settled. *)
Definition sparkNotification (msg : option message) : M unit :=
  match msg with
  | None => ret tt
  | Some msg =>
      fire debugBase [VStr ("Received spark notification " ++ content msg)] ;;
      parsed <- eval (JSON_parse E (content msg)) ;;
      data <- eval (delete parsed "subdomain") ;;
      emit (ECall RobotEntries_createEntry [data]) ;;
      emit (EAck msg) ;;
      detached
        match extern E RobotEntries_createEntry [data] with
        | Ok _ => fire debugBase [VStr "success"]
        | Throw e =>
            message <- eval (get e "message") ;;
            fire debugBase [message]
        end
  end.

Definition run_consumer (c : consumer) (msg : option message) : M unit :=
  match c with
  | on_rpc_queue => rpc_queue msg
  | on_callPublish => callPublish msg
  | on_widgetNotification => widgetNotification msg
  | on_integrationsNotification => integrationsNotification msg
  | on_set_donot_disturb => set_donot_disturb msg
  | on_sparkNotification => sparkNotification msg
  | on_rpc_reply p correlationId' q => rpc_reply p correlationId' q msg
  end.

(** [const { RABBITMQ_HOST = 'amqp://localhost' } = process.env] *)
Definition host : string :=
  match RABBITMQ_HOST E with
  | Some h => h
  | None => "amqp://localhost"
  end.

(** [initConsumer()]: once the connection and the channel are there, the
    operations on the channel are taken to succeed. *)
Definition initConsumer : M unit :=
  try_catch
    (call amqplib_connect [VStr host] ;;
     call connection_createChannel [] ;;
     emit (EAssertQueue "rpc_queue:erxes-integrations" false) ;;
     emit (EConsume "rpc_queue:erxes-integrations" on_rpc_queue false) ;;
     emit (EAssertQueue "callPublish" false) ;;
     emit (EConsume "callPublish" on_callPublish false) ;;
     emit (EAssertQueue "widgetNotification" false) ;;
     emit (EConsume "widgetNotification" on_widgetNotification false) ;;
     emit (EAssertQueue "integrationsNotification" false) ;;
     emit (EConsume "integrationsNotification" on_integrationsNotification false) ;;
     emit (EAssertQueue "engages-api:set-donot-disturb" false) ;;
     emit (EConsume "engages-api:set-donot-disturb" on_set_donot_disturb false) ;;
     emit (EAssertQueue "sparkNotification" false) ;;
     emit (EConsume "sparkNotification" on_sparkNotification false))
    (fun e =>
       message <- eval (get e "message") ;;
       fire debugBase [message]).

End Program.

End Broker.

(** ** The process as a whole

    The world is the trace so far.  Which callback a queue has and how a
    promise stands are read off it: a callback is registered by
    [channel.consume], a promise is settled by the first [resolve] or
    [reject] it gets. *)

Module World.
Import Broker.

Definition world : Type := list event.

Fixpoint registered (w : world) : list (string * consumer) :=
  match w with
  | [] => []
  | EConsume q c _ :: rest => (q, c) :: registered rest
  | _ :: rest => registered rest
  end.

Fixpoint consumer_of (q : string) (rs : list (string * consumer)) : option consumer :=
  match rs with
  | [] => None
  | (q', c) :: rest => if String.eqb q' q then Some c else consumer_of q rest
  end.

Inductive promise_state : Type :=
| Pending
| Resolved (v : value)
| Rejected (reason : value).

Fixpoint promise_state_of (p : nat) (w : world) : promise_state :=
  match w with
  | [] => Pending
  | EResolve p' v :: rest => if Nat.eqb p' p then Resolved v else promise_state_of p rest
  | EReject p' r :: rest => if Nat.eqb p' p then Rejected r else promise_state_of p rest
  | _ :: rest => promise_state_of p rest
  end.

Fixpoint deleted_queues (w : world) : list string :=
  match w with
  | [] => []
  | EDeleteQueue q :: rest => q :: deleted_queues rest
  | _ :: rest => deleted_queues rest
  end.

Fixpoint promises (w : world) : nat :=
  match w with
  | [] => 0
  | ENewPromise _ :: rest => S (promises rest)
  | _ :: rest => promises rest
  end.

(** What happens to the process: the broker delivers a message (or a
    cancellation, [None]) to the callback of a queue, or the rest of the
    system calls one of the two exported functions. *)
Inductive action : Type :=
| Deliver (queue : string) (msg : option message)
| CallSendMessage (queueName : string) (data : value)
| CallSendRPCMessage (uuid : string) (replyQueue : string) (message : value).

Section Steps.

Variable E : env.

(** The dispatch of a delivery in a running process: the callback of
    the queue runs, and what it does is added to the trace.  When the
    callback fails, whether the process is still running afterwards is
    the runtime's doing and not the program's: a rejected promise
    nobody handles is a warning by default up to Node 14 and ends the
    process by default from Node 15 on, and what amqplib does with an
    exception out of the plain callback of a reply queue is its own
    affair.  The statements below about what comes after a delivery
    either are about the registrations, which no callback touches, or
    assume that no callback has failed. *)
Definition deliver (q : string) (msg : option message) (w : world) : world :=
  match consumer_of q (registered w) with
  | Some c => (w ++ events (run_consumer E c msg))%list
  | None => w
  end.

(** The module variable [channel] once [initConsumer] is through:
    assigned when the connection and the channel were obtained,
    [undefined] otherwise. *)
Definition channel : option value :=
  match extern E amqplib_connect [VStr (host E)] with
  | Ok _ =>
      match extern E connection_createChannel [] with
      | Ok opened => Some opened
      | Throw _ => None
      end
  | Throw _ => None
  end.

(** Without a channel [sendMessage] fails at [channel.assertQueue], its
    caller getting the rejection, and the executor of the promise of
    [sendRPCMessage] throws there, which rejects the promise. *)
Definition step (w : world) (a : action) : world :=
  match a with
  | Deliver q msg => deliver q msg w
  | CallSendMessage queueName data =>
      match channel with
      | Some _ => (w ++ events (sendMessage queueName data))%list
      | None => w
      end
  | CallSendRPCMessage uuid q message =>
      match channel with
      | Some _ => (w ++ events (sendRPCMessage (promises w) uuid q message))%list
      | None =>
          (w ++ [ENewPromise (promises w);
                 EReject (promises w)
                   (TypeError "Cannot read property 'assertQueue' of undefined")])%list
      end
  end.

Definition run (w : world) (actions : list action) : world :=
  fold_left step actions w.

(** The process after start-up: [initConsumer()] is the last statement
    of the module. *)
Definition started : world := events (initConsumer E).


End Steps.


(** The callbacks of [initConsumer], as opposed to those of RPC calls. *)
Definition startup (c : consumer) : bool :=
  match c with
  | on_rpc_reply _ _ _ => false
  | _ => true
  end.

(** Registrations that are all of RPC calls. *)
Definition rpc_replies_only (rs : list (string * consumer)) : Prop :=
  Forall (fun qc => startup (snd qc) = false) rs.

(** The well-known queues and their callbacks. *)
Definition well_known : list (string * consumer) :=
  [("rpc_queue:erxes-integrations", on_rpc_queue);
   ("callPublish", on_callPublish);
   ("widgetNotification", on_widgetNotification);
   ("integrationsNotification", on_integrationsNotification);
   ("engages-api:set-donot-disturb", on_set_donot_disturb);
   ("sparkNotification", on_sparkNotification)].

(** What a callback of [initConsumer] logs before it decodes the body. *)
Definition receipt_log (c : consumer) (msg : message) : list event :=
  match c with
  | on_rpc_queue =>
      [ECall debugBase [VStr ("Received rpc queue message " ++ content msg)]]
  | on_sparkNotification =>
      [ECall debugBase [VStr ("Received spark notification " ++ content msg)]]
  | _ => []
  end.

Definition is_call (e : event) : Prop :=
  match e with
  | ECall _ _ => True
  | _ => False
  end.

Definition is_consume (e : event) : Prop :=
  match e with
  | EConsume _ _ _ => True
  | _ => False
  end.

End World.
Import Broker World.

(** ** Environments and messages the statements are run on *)

Module Examples.

Definition text (v : value) : string :=
  match JSON.stringify v with
  | Some s => s
  | None => EmptyString
  end.

Definition pong : value := VObj [("status", VStr "success"); ("data", VStr "pong")].
Definition boom : value := VObj [("status", VStr "error"); ("errorMessage", VStr "boom")].

(** Every collaborator succeeds; the RPC handler answers [pong]. *)
Definition quiet : env := {|
  NODE_ENV := None;
  RABBITMQ_HOST := None;
  JSON_parse := JSON.parse;
  Number_toString := large_integer_to_string;
  extern := fun f _ =>
    match f with
    | receiveRpcMessage => Ok pong
    | _ => Ok VUndefined
    end
|}.

(** The handlers the consumers await fail. *)
Definition failing : env := {|
  NODE_ENV := None;
  RABBITMQ_HOST := None;
  JSON_parse := JSON.parse;
  Number_toString := large_integer_to_string;
  extern := fun f _ =>
    match f with
    | receiveRpcMessage | receiveIntegrationsNotification
    | Customers_updateOne | RobotEntries_createEntry =>
        Throw (new_Error "handler failed")
    | _ => Ok VUndefined
    end
|}.

(** The broker cannot be reached. *)
Definition unreachable : env := {|
  NODE_ENV := None;
  RABBITMQ_HOST := Some "amqp://broker:5672";
  JSON_parse := JSON.parse;
  Number_toString := large_integer_to_string;
  extern := fun f _ =>
    match f with
    | amqplib_connect => Throw (new_Error "connect ECONNREFUSED")
    | _ => Ok VUndefined
    end
|}.

Definition reply (tag : N) (id : string) (v : value) : message := {|
  content := text v;
  deliveryTag := tag;
  properties := {| correlationId := Some id; replyTo := None |}
|}.

Definition request (tag : N) (id q : string) (v : value) : message := {|
  content := text v;
  deliveryTag := tag;
  properties := {| correlationId := Some id; replyTo := Some q |}
|}.

Definition plain (tag : N) (body : string) : message := {|
  content := body;
  deliveryTag := tag;
  properties := no_options
|}.

End Examples.

(** ** Properties *)

Local Open Scope list_scope.

Section Facts.

Variable E : env.

Lemma events_bind {A B} (m : M A) (k : A -> M B) :
  events (bind m k) =
  match result m with
  | Ok a => (events m ++ events (k a))%list
  | Throw _ => events m
  end.
Proof.
  destruct m as [t [a | e]]; simpl; [destruct (k a) |]; reflexivity.
Qed.

Lemma result_bind {A B} (m : M A) (k : A -> M B) :
  result (bind m k) =
  match result m with
  | Ok a => result (k a)
  | Throw e => Throw e
  end.
Proof.
  destruct m as [t [a | e]]; simpl; [destruct (k a) |]; reflexivity.
Qed.

Lemma promise_state_of_app p w w' :
  promise_state_of p (w ++ w') =
  match promise_state_of p w with
  | Pending => promise_state_of p w'
  | settled => settled
  end.
Proof.
  induction w as [| e w IH]; simpl.
  - destruct (promise_state_of p w'); reflexivity.
  - destruct e; auto; destruct (Nat.eqb promise p); auto.
Qed.

Lemma registered_app w w' : registered (w ++ w') = (registered w ++ registered w')%list.
Proof.
  induction w as [| e w IH]; simpl; [reflexivity |].
  destruct e; simpl; congruence.
Qed.

Lemma deleted_queues_app w w' :
  deleted_queues (w ++ w') = (deleted_queues w ++ deleted_queues w')%list.
Proof.
  induction w as [| e w IH]; simpl; [reflexivity |].
  destruct e; simpl; congruence.
Qed.

Lemma consumer_of_app q rs rs' c :
  consumer_of q rs = Some c -> consumer_of q (rs ++ rs') = Some c.
Proof.
  induction rs as [| [q' c'] rs IH]; simpl; [discriminate |].
  destruct (String.eqb q' q); auto.
Qed.

Lemma get_status_is_object res s :
  get res "status" = Ok (VStr s) -> exists fields, res = VObj fields.
Proof.
  destruct res; simpl; try discriminate.
  intros _. eexists; reflexivity.
Qed.

Lemma get_object_total fields k : exists v, get (VObj fields) k = Ok v.
Proof.
  simpl. destruct (lookup k fields); eexists; reflexivity.
Qed.

End Facts.

(** *** Runs *)

(** The decoder reads back what the encoder writes. *)
Example parse_stringify_pong :
  JSON.parse (Examples.text Examples.pong) = Ok Examples.pong.
Proof. vm_compute. reflexivity. Qed.

(** A later member of the same name wins, at the place of the first. *)
Example parse_repeated_member :
  JSON.parse ("{ " ++ JSON.quote "a" ++ ": 1, " ++ JSON.quote "b"
              ++ ": [true, null], " ++ JSON.quote "a" ++ ": -0 }")%string
  = Ok (VObj [("a", VNum NegZero); ("b", VArr [VBool true; VNull])]).
Proof. vm_compute. reflexivity. Qed.

(** [sendRPCMessage({op: 'ping'})] against a server that answers
    [{status: 'success', data: 'pong'}]: a stray reply is ignored, the
    matching one resolves the call with 'pong' and the reply queue is
    deleted. *)
Example ping_pong :
  let w := run Examples.quiet (started Examples.quiet)
             [CallSendRPCMessage "c-1" "amq.gen-A" (VObj [("op", VStr "ping")]);
              Deliver "amq.gen-A" (Some (Examples.reply 1 "c-0" Examples.boom));
              Deliver "amq.gen-A" (Some (Examples.reply 2 "c-1" Examples.pong))] in
  promise_state_of 0 w = Resolved (VStr "pong") /\
  deleted_queues w = ["amq.gen-A"].
Proof. vm_compute. split; reflexivity. Qed.

(** The broker cannot be reached: the error is logged, nothing is
    declared. *)
Example initConsumer_unreachable :
  initConsumer Examples.unreachable
  = ([ECall amqplib_connect [VStr "amqp://broker:5672"];
      ECall debugBase [VStr "connect ECONNREFUSED"]],
     Ok tt).
Proof. reflexivity. Qed.

(** C1.  A reply that carries the correlation id of the call and decodes
    to [res]: when [res.status] is ['success'] the callback calls
    [resolve(res.data)] and then deletes the reply queue, so a pending
    call is resolved with exactly [res.data]; when [res.status] is
    ['error'] it calls [reject(res.errorMessage)] and then deletes the
    reply queue, so a pending call is rejected with exactly
    [res.errorMessage]. *)
Theorem rpc_reply_settles (E : env) (p : nat) (id q : string) (msg : message)
    (res : value) :
  correlationId (properties msg) = Some id ->
  JSON_parse E (content msg) = Ok res ->
  (get res "status" = Ok (VStr "success") ->
   exists data,
     get res "data" = Ok data /\
     events (rpc_reply E p id q (Some msg)) = [EResolve p data; EDeleteQueue q] /\
     forall w, promise_state_of p w = Pending ->
       promise_state_of p (w ++ events (rpc_reply E p id q (Some msg))) = Resolved data)
  /\
  (get res "status" = Ok (VStr "error") ->
   exists errorMessage,
     get res "errorMessage" = Ok errorMessage /\
     events (rpc_reply E p id q (Some msg)) = [EReject p errorMessage; EDeleteQueue q] /\
     forall w, promise_state_of p w = Pending ->
       promise_state_of p (w ++ events (rpc_reply E p id q (Some msg)))
       = Rejected errorMessage).
Proof.
  intros Hid Hres.
  assert (Hsame : same_string (correlationId (properties msg)) id = true)
    by (rewrite Hid; simpl; apply String.eqb_refl).
  split; intros Hstatus.
  - destruct (get_status_is_object _ _ Hstatus) as [fields ->].
    destruct (get_object_total fields "data") as [data Hdata].
    exists data. split; [exact Hdata |].
    assert (Hev : events (rpc_reply E p id q (Some msg)) = [EResolve p data; EDeleteQueue q]).
    { unfold rpc_reply. rewrite Hsame, Hres. unfold eval, bind.
      rewrite Hstatus. simpl strict_eq_str. cbv iota. rewrite Hdata. reflexivity. }
    split; [exact Hev |].
    intros w Hw. rewrite Hev, promise_state_of_app, Hw. simpl.
    now rewrite Nat.eqb_refl.
  - destruct (get_status_is_object _ _ Hstatus) as [fields ->].
    destruct (get_object_total fields "errorMessage") as [em Hem].
    exists em. split; [exact Hem |].
    assert (Hev : events (rpc_reply E p id q (Some msg)) = [EReject p em; EDeleteQueue q]).
    { unfold rpc_reply. rewrite Hsame, Hres. unfold eval, bind.
      rewrite Hstatus. simpl strict_eq_str. cbv iota. rewrite Hem. reflexivity. }
    split; [exact Hev |].
    intros w Hw. rewrite Hev, promise_state_of_app, Hw. simpl.
    now rewrite Nat.eqb_refl.
Qed.

Lemma rpc_reply_settles_witness :
  events (rpc_reply Examples.quiet 0 "c-1" "amq.gen-A"
            (Some (Examples.reply 1 "c-1" Examples.pong)))
  = [EResolve 0 (VStr "pong"); EDeleteQueue "amq.gen-A"]
  /\
  events (rpc_reply Examples.quiet 0 "c-1" "amq.gen-A"
            (Some (Examples.reply 2 "c-1" Examples.boom)))
  = [EReject 0 (VStr "boom"); EDeleteQueue "amq.gen-A"].
Proof.
  split.
  - destruct (proj1 (rpc_reply_settles Examples.quiet 0 "c-1" "amq.gen-A"
                       (Examples.reply 1 "c-1" Examples.pong) Examples.pong
                       eq_refl eq_refl) eq_refl)
      as [data [Hdata [Hev _]]].
    injection Hdata as <-. exact Hev.
  - destruct (proj2 (rpc_reply_settles Examples.quiet 0 "c-1" "amq.gen-A"
                       (Examples.reply 2 "c-1" Examples.boom) Examples.boom
                       eq_refl eq_refl) eq_refl)
      as [em [Hem [Hev _]]].
    injection Hem as <-. exact Hev.
Defined.

(** C3.  A reply whose correlation id is not the one generated for the
    call is ignored: the callback does nothing, so the promise of the
    call, the deleted queues and the registered callbacks are what they
    were.  Conversely a reply after which the promise is settled carries
    the correlation id of the call. *)
Theorem rpc_reply_ignores_other_ids (E : env) (p : nat) (id q : string)
    (msg : message) :
  (correlationId (properties msg) <> Some id ->
   rpc_reply E p id q (Some msg) = ([], Ok tt) /\
   forall w,
     let w' := w ++ events (rpc_reply E p id q (Some msg)) in
     promise_state_of p w' = promise_state_of p w /\
     deleted_queues w' = deleted_queues w /\
     registered w' = registered w)
  /\
  (promise_state_of p (events (rpc_reply E p id q (Some msg))) <> Pending ->
   correlationId (properties msg) = Some id).
Proof.
  assert (Hcases : correlationId (properties msg) = Some id \/
                   same_string (correlationId (properties msg)) id = false).
  { destruct (correlationId (properties msg)) as [s |]; simpl; [| now right].
    destruct (String.eqb_spec s id); [left; congruence | now right]. }
  split.
  - intros Hneq. destruct Hcases as [Heq | Hsame]; [contradiction |].
    assert (Hrun : rpc_reply E p id q (Some msg) = ([], Ok tt))
      by (unfold rpc_reply; rewrite Hsame; reflexivity).
    split; [exact Hrun |].
    intros w w'. subst w'. rewrite Hrun. simpl. rewrite app_nil_r. auto.
  - intros Hsettled. destruct Hcases as [Heq | Hsame]; [exact Heq |].
    exfalso. apply Hsettled. unfold rpc_reply. rewrite Hsame. reflexivity.
Qed.

Lemma rpc_reply_ignores_other_ids_witness :
  rpc_reply Examples.quiet 0 "c-1" "amq.gen-A"
    (Some (Examples.reply 1 "c-2" Examples.pong)) = ([], Ok tt).
Proof.
  apply (proj1 (rpc_reply_ignores_other_ids Examples.quiet 0 "c-1" "amq.gen-A"
                  (Examples.reply 1 "c-2" Examples.pong))).
  simpl. discriminate.
Defined.

(** C10.  When the broker cancels the consumer of the reply queue the
    callback is called with [null]: it calls [reject] with an [Error]
    whose message is 'consumer cancelled by rabbitmq' and returns, so a
    pending call is rejected with that error and no queue is deleted. *)
Theorem rpc_reply_cancelled (E : env) (p : nat) (id q : string) :
  rpc_reply E p id q None
  = ([EReject p (new_Error "consumer cancelled by rabbitmq")], Ok tt)
  /\ get (new_Error "consumer cancelled by rabbitmq") "message"
     = Ok (VStr "consumer cancelled by rabbitmq")
  /\ (forall w, promise_state_of p w = Pending ->
        promise_state_of p (w ++ events (rpc_reply E p id q None))
        = Rejected (new_Error "consumer cancelled by rabbitmq"))
  /\ (forall w, deleted_queues (w ++ events (rpc_reply E p id q None))
                = deleted_queues w).
Proof.
  repeat split.
  - intros w Hw. rewrite promise_state_of_app, Hw. simpl. now rewrite Nat.eqb_refl.
  - intros w. rewrite deleted_queues_app. simpl. apply app_nil_r.
Qed.

Lemma rpc_reply_cancelled_witness :
  promise_state_of 0
    ([ENewPromise 0] ++ events (rpc_reply Examples.quiet 0 "c-1" "amq.gen-A" None))
  = Rejected (new_Error "consumer cancelled by rabbitmq").
Proof.
  apply (proj1 (proj2 (proj2
           (rpc_reply_cancelled Examples.quiet 0 "c-1" "amq.gen-A")))).
  reflexivity.
Defined.

Lemma stringify_defined (v : value) :
  v <> VUndefined -> exists body, JSON.stringify v = Some body.
Proof.
  destruct v as [| | [|] | [| neg | | z] | s | items | fields | name message];
    intros Hv; try contradiction; simpl; eexists; reflexivity.
Qed.

(** C5.  A call of [sendRPCMessage] with a message (anything but
    [undefined], which has no serialization) declares an exclusive queue
    under the empty name, for the broker to name; subscribes to the
    queue the broker named, without acknowledgements; and publishes the
    serialized message to 'rpc_queue:erxes-api' with the generated
    correlation id and with the name of that queue as [replyTo]. *)
Theorem sendRPCMessage_protocol (p : nat) (id q : string) (message : value) :
  message <> VUndefined ->
  exists body,
    JSON.stringify message = Some body /\
    sendRPCMessage p id q message
    = ([ENewPromise p;
        EAssertQueue EmptyString true;
        EConsume q (on_rpc_reply p id q) true;
        ESendToQueue (Some "rpc_queue:erxes-api") body
          {| correlationId := Some id; replyTo := Some q |}],
       Ok tt).
Proof.
  intros Hmessage.
  destruct (stringify_defined message Hmessage) as [body Hbody].
  exists body. split; [exact Hbody |].
  unfold sendRPCMessage. rewrite Hbody. reflexivity.
Qed.

Lemma sendRPCMessage_protocol_witness :
  exists body,
    JSON.stringify (VObj [("op", VStr "ping")]) = Some body /\
    sendRPCMessage 0 "c-1" "amq.gen-A" (VObj [("op", VStr "ping")])
    = ([ENewPromise 0;
        EAssertQueue EmptyString true;
        EConsume "amq.gen-A" (on_rpc_reply 0 "c-1" "amq.gen-A") true;
        ESendToQueue (Some "rpc_queue:erxes-api") body
          {| correlationId := Some "c-1"; replyTo := Some "amq.gen-A" |}],
       Ok tt).
Proof.
  apply (sendRPCMessage_protocol 0 "c-1" "amq.gen-A" (VObj [("op", VStr "ping")])).
  discriminate.
Defined.

(** C9.  When [data] is omitted, [undefined] or any other falsy value,
    [sendMessage] declares the queue and sends it the two bytes of
    the serialization of the empty object: the body is never 'null' nor
    'undefined'. *)
Theorem sendMessage_falsy_data (queueName : string) (data : value) :
  falsy data = true ->
  JSON.stringify (VObj []) = Some "{}" /\
  sendMessage queueName data
  = ([EAssertQueue queueName false; ESendToQueue (Some queueName) "{}" no_options],
     Ok tt)
  /\ forall queue body options,
       In (ESendToQueue queue body options) (events (sendMessage queueName data)) ->
       body = "{}" /\ body <> "null" /\ body <> "undefined".
Proof.
  intros Hfalsy.
  assert (Hrun : sendMessage queueName data
                 = ([EAssertQueue queueName false;
                     ESendToQueue (Some queueName) "{}" no_options], Ok tt)).
  { unfold sendMessage, or_else. unfold falsy in Hfalsy.
    apply negb_true_iff in Hfalsy. rewrite Hfalsy. reflexivity. }
  split; [reflexivity |]. split; [exact Hrun |].
  intros queue body options Hin. rewrite Hrun in Hin. simpl in Hin.
  destruct Hin as [Hin | [Hin | []]]; [discriminate |].
  injection Hin as _ <- _. repeat split; discriminate.
Qed.

Lemma sendMessage_falsy_data_witness :
  sendMessage "widgetNotification" VUndefined
  = ([EAssertQueue "widgetNotification" false;
      ESendToQueue (Some "widgetNotification") "{}" no_options], Ok tt)
  /\
  sendMessage "widgetNotification" VNull
  = ([EAssertQueue "widgetNotification" false;
      ESendToQueue (Some "widgetNotification") "{}" no_options], Ok tt).
Proof.
  split.
  - apply (proj1 (proj2 (sendMessage_falsy_data "widgetNotification" VUndefined eq_refl))).
  - apply (proj1 (proj2 (sendMessage_falsy_data "widgetNotification" VNull eq_refl))).
Defined.

(** C4.  A message delivered on 'rpc_queue:erxes-integrations' whose
    body decodes and whose handler returns a response (anything but
    [undefined], which has no serialization): the callback hands the
    decoded body to [receiveRpcMessage], publishes the serialized
    response to the queue named by the message's [replyTo] with the
    message's own [correlationId], and after that acknowledges the
    message. *)
Theorem rpc_queue_replies (E : env) (msg : message) (payload response : value) :
  JSON_parse E (content msg) = Ok payload ->
  extern E receiveRpcMessage [payload] = Ok response ->
  response <> VUndefined ->
  exists body,
    JSON.stringify response = Some body /\
    rpc_queue E (Some msg)
    = ([ECall debugBase [VStr ("Received rpc queue message " ++ content msg)%string];
        ECall receiveRpcMessage [payload];
        ESendToQueue (replyTo (properties msg)) body
          {| correlationId := correlationId (properties msg); replyTo := None |};
        EAck msg],
       Ok tt).
Proof.
  intros Hparse Hhandler Hresponse.
  destruct (stringify_defined response Hresponse) as [body Hbody].
  exists body. split; [exact Hbody |].
  unfold rpc_queue, fire, call, eval, emit, bind.
  rewrite Hparse, Hhandler, Hbody. reflexivity.
Qed.

Lemma rpc_queue_replies_witness :
  exists body,
    JSON.stringify Examples.pong = Some body /\
    rpc_queue Examples.quiet
      (Some (Examples.request 5 "c-9" "amq.gen-Z" (VObj [("action", VStr "ping")])))
    = ([ECall debugBase
          [VStr ("Received rpc queue message "
                 ++ Examples.text (VObj [("action", VStr "ping")]))%string];
        ECall receiveRpcMessage [VObj [("action", VStr "ping")]];
        ESendToQueue (Some "amq.gen-Z") body
          {| correlationId := Some "c-9"; replyTo := None |};
        EAck (Examples.request 5 "c-9" "amq.gen-Z" (VObj [("action", VStr "ping")]))],
       Ok tt).
Proof.
  apply (rpc_queue_replies Examples.quiet
           (Examples.request 5 "c-9" "amq.gen-Z" (VObj [("action", VStr "ping")]))
           (VObj [("action", VStr "ping")]) Examples.pong).
  - vm_compute. reflexivity.
  - reflexivity.
  - discriminate.
Defined.

(** C7.  A message delivered on 'callPublish' whose body decodes to an
    envelope with [name] N and [data] D: the callback calls
    [graphqlPubsub.publish(N, D)], once, and then acknowledges the
    message. *)
Theorem callPublish_forwards (E : env) (msg : message) (params name data : value) :
  JSON_parse E (content msg) = Ok params ->
  get params "name" = Ok name ->
  get params "data" = Ok data ->
  callPublish E (Some msg)
  = ([ECall graphqlPubsub_publish [name; data]; EAck msg], Ok tt)
  /\ length (filter (fun e => match e with
                              | ECall graphqlPubsub_publish _ => true
                              | _ => false
                              end) (events (callPublish E (Some msg)))) = 1.
Proof.
  intros Hparse Hname Hdata.
  assert (Hrun : callPublish E (Some msg)
                 = ([ECall graphqlPubsub_publish [name; data]; EAck msg], Ok tt)).
  { unfold callPublish, fire, eval, emit, bind.
    rewrite Hparse, Hname, Hdata. reflexivity. }
  split; [exact Hrun |]. rewrite Hrun. reflexivity.
Qed.

Lemma callPublish_forwards_witness :
  callPublish Examples.quiet
    (Some (Examples.plain 3
             (Examples.text (VObj [("name", VStr "fooEvent");
                                   ("data", VObj [("x", VNum (Int 1))])]))))
  = ([ECall graphqlPubsub_publish [VStr "fooEvent"; VObj [("x", VNum (Int 1))]];
      EAck (Examples.plain 3
              (Examples.text (VObj [("name", VStr "fooEvent");
                                    ("data", VObj [("x", VNum (Int 1))])])))],
     Ok tt).
Proof.
  apply (proj1 (callPublish_forwards Examples.quiet
           (Examples.plain 3
              (Examples.text (VObj [("name", VStr "fooEvent");
                                    ("data", VObj [("x", VNum (Int 1))])])))
           (VObj [("name", VStr "fooEvent"); ("data", VObj [("x", VNum (Int 1))])])
           (VStr "fooEvent") (VObj [("x", VNum (Int 1))])
           ltac:(vm_compute; reflexivity) eq_refl eq_refl)).
Defined.

(** *** What the callbacks can do *)

Section Traces.

Variable E : env.
Variable P : event -> Prop.

Lemma Forall_events_bind {A B} (m : M A) (k : A -> M B) :
  Forall P (events m) -> (forall a, Forall P (events (k a))) ->
  Forall P (events (bind m k)).
Proof.
  intros Hm Hk. rewrite events_bind. destruct (result m); [| exact Hm].
  apply Forall_app. split; [exact Hm | apply Hk].
Qed.

Lemma Forall_events_eval {A} (o : outcome A) : Forall P (events (eval o)).
Proof. constructor. Qed.

Lemma Forall_events_ret {A} (a : A) : Forall P (events (ret a)).
Proof. constructor. Qed.

Lemma Forall_events_emit e : P e -> Forall P (events (emit e)).
Proof. intros He. repeat constructor. exact He. Qed.

Lemma Forall_events_call f args : P (ECall f args) -> Forall P (events (call E f args)).
Proof. intros He. repeat constructor. exact He. Qed.

Lemma Forall_events_for_each {A} (xs : list A) (body : A -> M unit) :
  (forall x, Forall P (events (body x))) -> Forall P (events (for_each xs body)).
Proof.
  intros Hbody. induction xs as [| x xs IH]; simpl.
  - constructor.
  - apply Forall_events_bind; auto.
Qed.

Lemma Forall_events_detached {A} (m : M A) :
  Forall P (events m) -> Forall P (events (detached m)).
Proof. intros Hm. exact Hm. Qed.

End Traces.

Ltac trace_step :=
  lazymatch goal with
  | |- Forall _ (events (bind _ _)) => apply Forall_events_bind; [| intros ?]
  | |- Forall _ (events (eval _)) => apply Forall_events_eval
  | |- Forall _ (events (ret _)) => apply Forall_events_ret
  | |- Forall _ (events (for_each _ _)) => apply Forall_events_for_each; intros ?
  | |- Forall _ (events (detached _)) => apply Forall_events_detached
  | |- Forall _ (events (call _ _ _)) => apply Forall_events_call; simpl; tauto
  | |- Forall _ (events (emit _)) => apply Forall_events_emit; simpl; tauto
  | |- Forall _ (events (if ?b then _ else _)) => destruct b
  | |- Forall _ (events (match ?o with Ok _ => _ | Throw _ => _ end)) => destruct o
  | |- Forall _ (events (match ?o with Some _ => _ | None => _ end)) => destruct o
  end.

Ltac trace_all := unfold fire; repeat trace_step.

Lemma receiveWidgetNotification_calls (E : env) (arg : value) :
  Forall is_call (events (receiveWidgetNotification E arg)).
Proof. unfold receiveWidgetNotification. trace_all. Qed.

Lemma is_call_not_consume (t : list event) :
  Forall is_call t -> Forall (fun e => ~ is_consume e) t.
Proof.
  apply Forall_impl. intros [] H; simpl in *; tauto.
Qed.

Lemma run_consumer_no_consume (E : env) (c : consumer) (msg : option message) :
  Forall (fun e => ~ is_consume e) (events (run_consumer E c msg)).
Proof.
  destruct c; simpl;
    [ unfold rpc_queue | unfold callPublish | unfold widgetNotification
    | unfold integrationsNotification | unfold set_donot_disturb
    | unfold sparkNotification | unfold rpc_reply ];
    trace_all.
  apply is_call_not_consume, receiveWidgetNotification_calls.
Qed.

Lemma registered_no_consume (t : list event) :
  Forall (fun e => ~ is_consume e) t -> registered t = [].
Proof.
  induction 1 as [| e t He _ IH]; simpl; [reflexivity |].
  destruct e; simpl in He; try exact IH. tauto.
Qed.

Lemma registered_run_consumer (E : env) (c : consumer) (msg : option message) :
  registered (events (run_consumer E c msg)) = [].
Proof. apply registered_no_consume, run_consumer_no_consume. Qed.

(** A delivery registers nothing. *)
Lemma registered_deliver (E : env) (q : string) (msg : option message) (w : world) :
  registered (deliver E q msg w) = registered w.
Proof.
  unfold deliver. destruct (consumer_of q (registered w)) as [c |]; [| reflexivity].
  rewrite registered_app, registered_run_consumer. apply app_nil_r.
Qed.

Lemma registered_sendMessage (queueName : string) (data : value) :
  registered (events (sendMessage queueName data)) = [].
Proof.
  unfold sendMessage, eval, emit, bind. destruct (Buffer_from _); reflexivity.
Qed.

Lemma registered_sendRPCMessage (p : nat) (id q : string) (message : value) :
  registered (events (sendRPCMessage p id q message)) = [(q, on_rpc_reply p id q)].
Proof.
  unfold sendRPCMessage, eval, emit, bind. destruct (Buffer_from _); reflexivity.
Qed.

Lemma registered_step (E : env) (w : world) (a : action) :
  exists rs, registered (step E w a) = registered w ++ rs /\ rpc_replies_only rs.
Proof.
  destruct a as [q msg | queueName data | uuid q message]; simpl.
  - exists []. rewrite registered_deliver, app_nil_r. split; [reflexivity | constructor].
  - exists []. destruct (channel E).
    + rewrite registered_app, registered_sendMessage.
      split; [reflexivity | constructor].
    + rewrite app_nil_r. split; [reflexivity | constructor].
  - destruct (channel E).
    + exists [(q, on_rpc_reply (promises w) uuid q)].
      rewrite registered_app, registered_sendRPCMessage.
      split; [reflexivity | repeat constructor].
    + exists []. rewrite registered_app, app_nil_r. simpl. rewrite app_nil_r.
      split; [reflexivity | constructor].
Qed.

Lemma registered_run (E : env) (actions : list action) (w : world) :
  exists rs, registered (run E w actions) = registered w ++ rs /\ rpc_replies_only rs.
Proof.
  revert w. induction actions as [| a actions IH]; intros w; simpl.
  - exists []. rewrite app_nil_r. split; [reflexivity | constructor].
  - destruct (registered_step E w a) as [rs1 [H1 Hrs1]].
    destruct (IH (step E w a)) as [rs2 [H2 Hrs2]].
    exists (rs1 ++ rs2). rewrite H2, H1, app_assoc. split; [reflexivity |].
    apply Forall_app; split; assumption.
Qed.

Lemma filter_rpc_replies_only (rs : list (string * consumer)) :
  rpc_replies_only rs -> filter (fun qc => startup (snd qc)) rs = [].
Proof.
  induction 1 as [| qc rs Hqc _ IH]; simpl; [reflexivity |].
  rewrite Hqc. exact IH.
Qed.

(** C6.  Once the connection and the channel are there, [initConsumer]
    declares the six well-known queues and no other, each immediately
    before it subscribes to it with acknowledgements (no [noAck]); each
    queue gets one callback; and whatever is delivered or called
    afterwards, these registrations stay as they are: the only callbacks
    registered later are those of RPC calls, and each well-known queue
    keeps its callback. *)
Theorem initConsumer_registrations (E : env) (connection channel : value) :
  extern E amqplib_connect [VStr (host E)] = Ok connection ->
  extern E connection_createChannel [] = Ok channel ->
  initConsumer E
  = ([ECall amqplib_connect [VStr (host E)];
      ECall connection_createChannel [];
      EAssertQueue "rpc_queue:erxes-integrations" false;
      EConsume "rpc_queue:erxes-integrations" on_rpc_queue false;
      EAssertQueue "callPublish" false;
      EConsume "callPublish" on_callPublish false;
      EAssertQueue "widgetNotification" false;
      EConsume "widgetNotification" on_widgetNotification false;
      EAssertQueue "integrationsNotification" false;
      EConsume "integrationsNotification" on_integrationsNotification false;
      EAssertQueue "engages-api:set-donot-disturb" false;
      EConsume "engages-api:set-donot-disturb" on_set_donot_disturb false;
      EAssertQueue "sparkNotification" false;
      EConsume "sparkNotification" on_sparkNotification false],
     Ok tt)
  /\ registered (started E) = well_known
  /\ NoDup (map fst well_known)
  /\ forall actions,
       filter (fun qc => startup (snd qc)) (registered (run E (started E) actions))
       = well_known
       /\ forall q c, In (q, c) well_known ->
            consumer_of q (registered (run E (started E) actions)) = Some c.
Proof.
  intros Hconnect Hchannel.
  match goal with |- ?init /\ _ => assert (Hinit : init) end.
  { unfold initConsumer, call, emit, bind, try_catch.
    rewrite Hconnect, Hchannel. reflexivity. }
  assert (Hreg : registered (started E) = well_known)
    by (unfold started; rewrite Hinit; reflexivity).
  split; [exact Hinit |]. split; [exact Hreg |]. split.
  - repeat constructor; simpl; intuition discriminate.
  - intros actions.
    destruct (registered_run E actions (started E)) as [rs [Hrun Hrs]].
    rewrite Hrun, Hreg. split.
    + rewrite filter_app, (filter_rpc_replies_only rs Hrs), app_nil_r. reflexivity.
    + intros q c Hin. apply consumer_of_app.
      simpl in Hin.
      repeat (destruct Hin as [Hin | Hin]; [injection Hin as <- <-; reflexivity |]).
      contradiction.
Qed.

Lemma initConsumer_registrations_witness :
  registered (started Examples.quiet) = well_known
  /\ consumer_of "callPublish"
       (registered
          (run Examples.quiet (started Examples.quiet)
             [CallSendRPCMessage "c-1" "amq.gen-A" (VObj [("op", VStr "ping")]);
              Deliver "callPublish" (Some (Examples.plain 1 "{"));
              CallSendMessage "callPublish" VUndefined;
              Deliver "amq.gen-A" None]))
     = Some on_callPublish.
Proof.
  destruct (initConsumer_registrations Examples.quiet VUndefined VUndefined
              eq_refl eq_refl) as [_ [Hreg [_ Hkeep]]].
  split; [exact Hreg |].
  apply (proj2 (Hkeep _)). simpl. tauto.
Defined.


Lemma widgetNotification_run (E : env) (msg : message) (payload : value) :
  JSON_parse E (content msg) = Ok payload ->
  widgetNotification E (Some msg)
  = match result (receiveWidgetNotification E payload) with
    | Ok _ => (events (receiveWidgetNotification E payload) ++ [EAck msg], Ok tt)
    | Throw e => (events (receiveWidgetNotification E payload), Throw e)
    end.
Proof.
  intros Hparse. unfold widgetNotification, eval, emit, bind. rewrite Hparse.
  destruct (receiveWidgetNotification E payload) as [t [[] | e]]; reflexivity.
Qed.




(** C8, as stated, fails.  On 'callPublish' the body [{] is not JSON:
    the callback fails at [JSON.parse] having done nothing, so nothing
    is logged and the message is not acknowledged; the broker keeps it
    as delivered and unacknowledged. *)
Lemma malformed_body_neither_logged_nor_acknowledged :
  callPublish Examples.quiet (Some (Examples.plain 4 "{"))
  = ([], Throw (SyntaxError "Unexpected token in JSON"))
  /\ (forall args,
        ~ In (ECall debugBase args)
             (events (run_consumer Examples.quiet on_callPublish
                        (Some (Examples.plain 4 "{")))))
  /\ ~ In (EAck (Examples.plain 4 "{"))
          (events (run_consumer Examples.quiet on_callPublish
                     (Some (Examples.plain 4 "{")))).
Proof.
  split; [vm_compute; reflexivity |].
  split; [intros args |]; vm_compute; intros [].
Qed.

(** C8, amended.  A message whose body is not JSON makes the callback
    of its queue fail at [JSON.parse], with the error of the decoder,
    which nothing in the callback catches: the handler is not called
    and the message is not acknowledged; nothing is logged about the
    failure, the only line being the one the callbacks of
    'rpc_queue:erxes-integrations' and 'sparkNotification' log on
    receipt, before they decode. *)
Theorem malformed_body_fails_callback
    (E : env) (c : consumer) (msg : message) (e : value) :
  startup c = true ->
  JSON_parse E (content msg) = Throw e ->
  run_consumer E c (Some msg) = (receipt_log c msg, Throw e)
  /\ (forall m, ~ In (EAck m) (events (run_consumer E c (Some msg))))
  /\ (forall f args,
        In (ECall f args) (events (run_consumer E c (Some msg))) -> f = debugBase).
Proof.
  intros Hstartup Hparse.
  assert (Hrun : run_consumer E c (Some msg) = (receipt_log c msg, Throw e)).
  { destruct c; try discriminate Hstartup; simpl;
      unfold fire, eval, emit, bind; rewrite Hparse; reflexivity. }
  split; [exact Hrun |]. rewrite Hrun. split.
  - intros m. destruct c; simpl; intuition discriminate.
  - intros f args. destruct c; simpl; intros Hin;
      try contradiction; destruct Hin as [[= <- _] | []]; reflexivity.
Qed.

Lemma malformed_body_fails_callback_witness :
  run_consumer Examples.quiet on_rpc_queue (Some (Examples.plain 4 "{"))
  = ([ECall debugBase [VStr "Received rpc queue message {"]],
     Throw (SyntaxError "Unexpected token in JSON")).
Proof.
  apply (proj1 (malformed_body_fails_callback Examples.quiet on_rpc_queue
                  (Examples.plain 4 "{") (SyntaxError "Unexpected token in JSON")
                  eq_refl ltac:(vm_compute; reflexivity))).
Defined.

(** ** Further properties

    What the functions of [messageBroker.ts] do on the inputs and in the
    environments the statements above leave aside. *)

Module Scenarios.

Definition conversation : value :=
  VObj [("_id", VStr "conv-1"); ("integrationId", VStr "int-1");
        ("assignedUserId", VStr "user-1")].

Definition joined_messages : list value :=
  [VObj [("_id", VStr "m-1"); ("content", VStr "joined")];
   VObj [("_id", VStr "m-2"); ("content", VStr "joined")]].

(** A production process.  [found] tells whether the database finds
    what it is asked for, [last_status] is what redis returns. *)
Definition production (found : bool) (last_status : value) : env := {|
  NODE_ENV := Some "production";
  RABBITMQ_HOST := None;
  JSON_parse := JSON.parse;
  Number_toString := large_integer_to_string;
  extern := fun f _ =>
    match f with
    | Conversations_findOne => Ok (if found then conversation else VNull)
    | redis_get => Ok last_status
    | Conversations_changeCustomerStatus => Ok (VArr joined_messages)
    | conversationNotifReceivers => Ok (VArr [VStr "user-1"])
    | Integrations_findOne =>
        Ok (if found then VObj [("_id", VStr "int-1"); ("createdUserId", VStr "user-1")]
            else VNull)
    | Users_findOne => Ok (if found then VObj [("_id", VStr "user-1")] else VNull)
    | receiveRpcMessage => Ok Examples.pong
    | _ => Ok VUndefined
    end
|}.

(** A process under test. *)
Definition under_test : env := {|
  NODE_ENV := Some "test";
  RABBITMQ_HOST := None;
  JSON_parse := JSON.parse;
  Number_toString := large_integer_to_string;
  extern := fun _ _ => Ok VUndefined
|}.

(** The channel cannot be opened on the connection. *)
Definition no_channel : env := {|
  NODE_ENV := None;
  RABBITMQ_HOST := None;
  JSON_parse := JSON.parse;
  Number_toString := large_integer_to_string;
  extern := fun f _ =>
    match f with
    | connection_createChannel => Throw (new_Error "channel refused")
    | _ => Ok VUndefined
    end
|}.

Definition inserted (customerId : string) : value :=
  VObj [("action", VStr "callPublish");
        ("data", VObj [("trigger", VStr "conversationMessageInserted");
                       ("payload", VObj [("customerId", VStr customerId);
                                         ("conversationId", VStr "conv-1");
                                         ("content", VStr "hello")])])].

End Scenarios.

(** The collaborators [receiveWidgetNotification] calls. *)
Definition widget_collaborator (f : collaborator) : bool :=
  match f with
  | Conversations_findOne | redis_get | redis_set
  | Conversations_changeCustomerStatus | graphqlPubsub_publish
  | conversationNotifReceivers | sendMobileNotification
  | ActivityLogs_createLogFromWidget | Integrations_findOne | Users_findOne
  | registerOnboardHistory => true
  | _ => false
  end.

Definition widget_event (e : event) : Prop :=
  match e with
  | ECall f _ => widget_collaborator f = true
  | _ => False
  end.

Lemma get_defined (v : value) (k : string) :
  v <> VUndefined -> v <> VNull -> exists x, get v k = Ok x.
Proof.
  intros Hu Hn. destruct v; try contradiction; simpl; try (eexists; reflexivity).
  - destruct (lookup k fields); eexists; reflexivity.
  - destruct (String.eqb k "message"); [eexists; reflexivity |].
    destruct (String.eqb k "name"); eexists; reflexivity.
Qed.

Lemma for_each_fire {A} (xs : list A) (f : collaborator) (args : A -> list value) :
  for_each xs (fun x => fire f (args x)) = (map (fun x => ECall f (args x)) xs, Ok tt).
Proof.
  induction xs as [| x xs IH]; simpl; [reflexivity |].
  rewrite IH. reflexivity.
Qed.

Ltac run_with H := rewrite H; cbn beta iota zeta delta [bind eval emit fire call ret app].

(** X1.  In a process under test ([NODE_ENV] is 'test') the widget
    handler does nothing, whatever the notification says: it calls no
    collaborator, and the callback of 'widgetNotification' only
    acknowledges the message.  The argument is destructured before the
    test, so it must not be [null]. *)
Theorem widget_under_test (E : env) (msg : message) (arg : value) :
  NODE_ENV E = Some "test" ->
  arg <> VUndefined -> arg <> VNull ->
  receiveWidgetNotification E arg = ([], Ok tt)
  /\ (JSON_parse E (content msg) = Ok arg ->
      widgetNotification E (Some msg) = ([EAck msg], Ok tt)).
Proof.
  intros Htest Hu Hn.
  destruct (get_defined arg "action" Hu Hn) as [action Haction].
  destruct (get_defined arg "data" Hu Hn) as [data Hdata].
  assert (Hrun : receiveWidgetNotification E arg = ([], Ok tt)).
  { unfold receiveWidgetNotification. run_with Haction. run_with Hdata.
    rewrite Htest. reflexivity. }
  split; [exact Hrun |].
  intros Hparse. rewrite (widgetNotification_run E msg arg Hparse), Hrun. reflexivity.
Qed.

Lemma widget_under_test_witness :
  widgetNotification Scenarios.under_test
    (Some (Examples.plain 1 (Examples.text (Scenarios.inserted "cust-1"))))
  = ([EAck (Examples.plain 1 (Examples.text (Scenarios.inserted "cust-1")))], Ok tt).
Proof.
  apply (proj2 (widget_under_test Scenarios.under_test
                  (Examples.plain 1 (Examples.text (Scenarios.inserted "cust-1")))
                  (Scenarios.inserted "cust-1") eq_refl
                  ltac:(discriminate) ltac:(discriminate))).
  vm_compute. reflexivity.
Defined.

Section Widget.

Variable E : env.
Variables arg action data : value.

Hypothesis not_under_test : same_string (NODE_ENV E) "test" = false.
Hypothesis arg_action : get arg "action" = Ok action.
Hypothesis arg_data : get arg "data" = Ok data.

Ltac enter :=
  unfold receiveWidgetNotification;
  run_with arg_action; run_with arg_data; rewrite not_under_test.

(** X2.  A notification whose action is none of 'callPublish',
    'activityLog' and 'leadInstalled' (or that has none) has no effect:
    the handler calls nothing and returns, without reading [data]. *)
Theorem widget_unknown_action :
  strict_eq_str action "callPublish" = false ->
  strict_eq_str action "activityLog" = false ->
  strict_eq_str action "leadInstalled" = false ->
  receiveWidgetNotification E arg = ([], Ok tt).
Proof.
  intros H1 H2 H3. enter. rewrite H1, H2, H3. reflexivity.
Qed.

(** X3.  A notification with one of the three actions and no [data]
    ([undefined] or [null]) makes the handler throw before it calls
    anything. *)
Theorem widget_missing_data :
  strict_eq_str action "callPublish" = true \/
  strict_eq_str action "activityLog" = true \/
  strict_eq_str action "leadInstalled" = true ->
  data = VUndefined \/ data = VNull ->
  events (receiveWidgetNotification E arg) = []
  /\ exists e, result (receiveWidgetNotification E arg) = Throw e.
Proof.
  intros Haction Hdata. enter.
  destruct action as [| | b | n | s | items | fields | name message];
    simpl in Haction; try (intuition discriminate).
  destruct Haction as [Ha | [Ha | Ha]];
    apply String.eqb_eq in Ha; subst s;
    destruct Hdata as [-> | ->]; simpl; split; try reflexivity; eexists; reflexivity.
Qed.

(** X4.  Action 'callPublish' with a trigger other than
    'conversationMessageInserted' that converts to a property key: the
    handler publishes the payload once, on the trigger, wrapped in an
    object whose only key is the trigger as a string, and does nothing
    else.  A trigger that does not convert makes the handler throw
    before it publishes. *)
Theorem widget_publishes_trigger (trigger payload : value) :
  action = VStr "callPublish" ->
  get data "trigger" = Ok trigger ->
  strict_eq_str trigger "conversationMessageInserted" = false ->
  get data "payload" = Ok payload ->
  (forall key, ToString E trigger = Ok key ->
     receiveWidgetNotification E arg
     = ([ECall graphqlPubsub_publish [trigger; VObj [(key, payload)]]], Ok tt))
  /\
  (forall e, ToString E trigger = Throw e ->
     receiveWidgetNotification E arg = ([], Throw e)).
Proof.
  intros -> Htrigger Hother Hpayload.
  split; [intros key Hkey | intros e Hkey];
    enter; simpl strict_eq_str; cbv iota;
    run_with Htrigger; rewrite Hother;
    cbn beta iota zeta delta [bind eval emit fire ret app];
    run_with Hkey; try run_with Hpayload; reflexivity.
Qed.

(** X5.  Action 'activityLog': the handler hands [data.type] and
    [data.payload] to [ActivityLogs.createLogFromWidget], once, and does
    nothing else. *)
Theorem widget_activity_log (type payload : value) :
  action = VStr "activityLog" ->
  get data "type" = Ok type ->
  get data "payload" = Ok payload ->
  receiveWidgetNotification E arg
  = ([ECall ActivityLogs_createLogFromWidget [type; payload]], Ok tt).
Proof.
  intros -> Htype Hpayload. enter. simpl strict_eq_str. cbv iota.
  cbn beta iota zeta delta [bind ret app].
  run_with Htype. run_with Hpayload. reflexivity.
Qed.

(** X6.  Action 'leadInstalled': the on-boarding step is registered,
    for the user who created the integration, exactly when both the
    integration and that user are found; when the integration is not
    found the user is not looked up. *)
Theorem widget_lead_installed (payload integrationId integration : value) :
  action = VStr "leadInstalled" ->
  get data "payload" = Ok payload ->
  get payload "integrationId" = Ok integrationId ->
  extern E Integrations_findOne [VObj [("_id", integrationId)]] = Ok integration ->
  (truthy integration = false ->
   receiveWidgetNotification E arg
   = ([ECall Integrations_findOne [VObj [("_id", integrationId)]]], Ok tt))
  /\
  (truthy integration = true ->
   forall createdUserId user,
     get integration "createdUserId" = Ok createdUserId ->
     extern E Users_findOne [VObj [("_id", createdUserId)]] = Ok user ->
     receiveWidgetNotification E arg
     = (ECall Integrations_findOne [VObj [("_id", integrationId)]]
        :: ECall Users_findOne [VObj [("_id", createdUserId)]]
        :: (if truthy user
            then [ECall registerOnboardHistory
                    [VObj [("type", VStr "leadIntegrationInstalled"); ("user", user)]]]
            else []),
        Ok tt)).
Proof.
  intros -> Hpayload Hid Hintegration. split.
  - intros Hnone. enter. simpl strict_eq_str. cbv iota.
    cbn beta iota zeta delta [bind ret app].
    run_with Hpayload. run_with Hid. run_with Hintegration.
    rewrite Hnone. reflexivity.
  - intros Hsome createdUserId user Hcreated Huser. enter. simpl strict_eq_str. cbv iota.
    cbn beta iota zeta delta [bind ret app].
    run_with Hpayload. run_with Hid. run_with Hintegration.
    rewrite Hsome. cbn beta iota zeta delta [bind ret app negb].
    run_with Hcreated. run_with Huser.
    destruct (truthy user); reflexivity.
Qed.

End Widget.

Lemma widget_unknown_action_witness :
  receiveWidgetNotification (Scenarios.production true VNull)
    (VObj [("action", VStr "ping")])
  = ([], Ok tt).
Proof.
  apply (widget_unknown_action (Scenarios.production true VNull)
           (VObj [("action", VStr "ping")]) (VStr "ping") VUndefined
           eq_refl eq_refl eq_refl eq_refl eq_refl eq_refl).
Defined.

Lemma widget_missing_data_witness :
  events (receiveWidgetNotification (Scenarios.production true VNull)
            (VObj [("action", VStr "activityLog"); ("data", VNull)]))
  = []
  /\ exists e,
       result (receiveWidgetNotification (Scenarios.production true VNull)
                 (VObj [("action", VStr "activityLog"); ("data", VNull)]))
       = Throw e.
Proof.
  apply (widget_missing_data (Scenarios.production true VNull)
           (VObj [("action", VStr "activityLog"); ("data", VNull)])
           (VStr "activityLog") VNull eq_refl eq_refl eq_refl).
  - right. left. reflexivity.
  - right. reflexivity.
Defined.

Lemma widget_publishes_trigger_witness :
  receiveWidgetNotification (Scenarios.production true VNull)
    (VObj [("action", VStr "callPublish");
           ("data", VObj [("trigger", VStr "conversationClientTypingStatusChanged");
                          ("payload", VObj [("text", VStr "hi")])])])
  = ([ECall graphqlPubsub_publish
        [VStr "conversationClientTypingStatusChanged";
         VObj [("conversationClientTypingStatusChanged",
                VObj [("text", VStr "hi")])]]],
     Ok tt).
Proof.
  apply (proj1 (widget_publishes_trigger (Scenarios.production true VNull)
           (VObj [("action", VStr "callPublish");
                  ("data", VObj [("trigger", VStr "conversationClientTypingStatusChanged");
                                 ("payload", VObj [("text", VStr "hi")])])])
           (VStr "callPublish")
           (VObj [("trigger", VStr "conversationClientTypingStatusChanged");
                  ("payload", VObj [("text", VStr "hi")])])
           eq_refl eq_refl eq_refl
           (VStr "conversationClientTypingStatusChanged")
           (VObj [("text", VStr "hi")])
           eq_refl eq_refl eq_refl eq_refl)).
  reflexivity.
Defined.

Lemma widget_activity_log_witness :
  receiveWidgetNotification (Scenarios.production true VNull)
    (VObj [("action", VStr "activityLog");
           ("data", VObj [("type", VStr "create-customer");
                          ("payload", VObj [("id", VStr "cust-1")])])])
  = ([ECall ActivityLogs_createLogFromWidget
        [VStr "create-customer"; VObj [("id", VStr "cust-1")]]],
     Ok tt).
Proof.
  apply (widget_activity_log (Scenarios.production true VNull)
           (VObj [("action", VStr "activityLog");
                  ("data", VObj [("type", VStr "create-customer");
                                 ("payload", VObj [("id", VStr "cust-1")])])])
           (VStr "activityLog")
           (VObj [("type", VStr "create-customer");
                  ("payload", VObj [("id", VStr "cust-1")])])
           eq_refl eq_refl eq_refl
           (VStr "create-customer") (VObj [("id", VStr "cust-1")])
           eq_refl eq_refl eq_refl).
Defined.

Lemma widget_lead_installed_witness :
  receiveWidgetNotification (Scenarios.production false VNull)
    (VObj [("action", VStr "leadInstalled");
           ("data", VObj [("payload", VObj [("integrationId", VStr "int-1")])])])
  = ([ECall Integrations_findOne [VObj [("_id", VStr "int-1")]]], Ok tt)
  /\
  receiveWidgetNotification (Scenarios.production true VNull)
    (VObj [("action", VStr "leadInstalled");
           ("data", VObj [("payload", VObj [("integrationId", VStr "int-1")])])])
  = ([ECall Integrations_findOne [VObj [("_id", VStr "int-1")]];
      ECall Users_findOne [VObj [("_id", VStr "user-1")]];
      ECall registerOnboardHistory
        [VObj [("type", VStr "leadIntegrationInstalled");
               ("user", VObj [("_id", VStr "user-1")])]]],
     Ok tt).
Proof.
  split.
  - apply (proj1 (widget_lead_installed (Scenarios.production false VNull)
             (VObj [("action", VStr "leadInstalled");
                    ("data", VObj [("payload", VObj [("integrationId", VStr "int-1")])])])
             (VStr "leadInstalled")
             (VObj [("payload", VObj [("integrationId", VStr "int-1")])])
             eq_refl eq_refl eq_refl
             (VObj [("integrationId", VStr "int-1")]) (VStr "int-1") VNull
             eq_refl eq_refl eq_refl eq_refl)).
    reflexivity.
  - apply (proj2 (widget_lead_installed (Scenarios.production true VNull)
             (VObj [("action", VStr "leadInstalled");
                    ("data", VObj [("payload", VObj [("integrationId", VStr "int-1")])])])
             (VStr "leadInstalled")
             (VObj [("payload", VObj [("integrationId", VStr "int-1")])])
             eq_refl eq_refl eq_refl
             (VObj [("integrationId", VStr "int-1")]) (VStr "int-1")
             (VObj [("_id", VStr "int-1"); ("createdUserId", VStr "user-1")])
             eq_refl eq_refl eq_refl eq_refl)
           eq_refl (VStr "user-1") (VObj [("_id", VStr "user-1")]) eq_refl eq_refl).
Defined.

Section Inserted.

Variable E : env.
Variables arg data payload customerId conversationId text : value.
Variables conversation lastStatus : value.
Variable customer : string.

Hypothesis not_under_test : same_string (NODE_ENV E) "test" = false.
Hypothesis arg_action : get arg "action" = Ok (VStr "callPublish").
Hypothesis arg_data : get arg "data" = Ok data.
Hypothesis data_trigger : get data "trigger" = Ok (VStr "conversationMessageInserted").
Hypothesis data_payload : get data "payload" = Ok payload.
Hypothesis payload_customerId : get payload "customerId" = Ok customerId.
Hypothesis payload_conversationId : get payload "conversationId" = Ok conversationId.
Hypothesis payload_content : get payload "content" = Ok text.
Hypothesis found :
  extern E Conversations_findOne
    [VObj [("_id", conversationId)];
     VObj [("integrationId", VNum (Int 1));
           ("participatedUserIds", VNum (Int 1));
           ("assignedUserId", VNum (Int 1))]] = Ok conversation.
Hypothesis customer_key : ToString E customerId = Ok customer.
Hypothesis last_status :
  extern E redis_get [VStr ("customer_last_status_" ++ customer)] = Ok lastStatus.

Definition find_conversation : event :=
  ECall Conversations_findOne
    [VObj [("_id", conversationId)];
     VObj [("integrationId", VNum (Int 1));
           ("participatedUserIds", VNum (Int 1));
           ("assignedUserId", VNum (Int 1))]].

Definition read_last_status : event :=
  ECall redis_get [VStr ("customer_last_status_" ++ customer)].

Definition notify_mobile (receivers : value) : event :=
  ECall sendMobileNotification
    [VObj [("title", VStr "You have a new message");
           ("body", text);
           ("customerId", customerId);
           ("conversationId", conversationId);
           ("receivers", receivers)]].

Definition publish_inserted (message : value) : event :=
  ECall graphqlPubsub_publish
    [VStr "conversationMessageInserted";
     VObj [("conversationMessageInserted", message)]].

Ltac enter :=
  unfold receiveWidgetNotification;
  run_with arg_action; run_with arg_data; rewrite not_under_test;
  simpl strict_eq_str; cbv iota;
  run_with data_trigger; simpl strict_eq_str; cbv iota;
  run_with data_payload; run_with payload_customerId;
  run_with payload_conversationId; run_with payload_content;
  run_with found; run_with customer_key; run_with last_status.

Ltac leave :=
  unfold ToString; cbn [to_string];
  cbn beta iota zeta delta [bind eval emit fire call ret app].

(** X7.  A message inserted in a conversation the database does not
    find, by a customer whose id converts to a string: the handler
    looks the conversation and the customer's last status up, sends no
    mobile notification, writes nothing, and still publishes the
    message to the subscribers. *)
Theorem inserted_in_unknown_conversation :
  truthy conversation = false ->
  receiveWidgetNotification E arg
  = ([find_conversation; read_last_status; publish_inserted payload], Ok tt).
Proof.
  intros Hnone. enter. rewrite Hnone. leave. reflexivity.
Qed.

(** X8.  A message inserted in a known conversation by a customer whose
    id converts to a string and whose last status is not 'left':
    nothing is written and no status is changed; the receivers computed
    by [conversationNotifReceivers] get one mobile notification whose
    body is the content of the message; then the message is
    published. *)
Theorem inserted_by_present_customer (receivers : value) :
  truthy conversation = true ->
  strict_eq_str lastStatus "left" = false ->
  extern E conversationNotifReceivers [conversation; customerId] = Ok receivers ->
  receiveWidgetNotification E arg
  = ([find_conversation; read_last_status;
      ECall conversationNotifReceivers [conversation; customerId];
      notify_mobile receivers;
      publish_inserted payload],
     Ok tt).
Proof.
  intros Hsome Hpresent Hreceivers. enter. rewrite Hsome, Hpresent.
  cbn beta iota zeta delta [bind eval emit fire call ret app].
  run_with Hreceivers. leave. reflexivity.
Qed.

(** X9.  A message inserted in a known conversation by a customer whose
    id converts to a string and whose last status is 'left': the status
    is set to 'joined' in redis, the customer's status is changed for
    the integration of the conversation, each message that change
    returns is published in order, then the customer is published as
    connected; after that the notification and the publication go as
    for a present customer. *)
Theorem inserted_by_returning_customer
    (integrationId joined receivers : value) (messages : list value) :
  truthy conversation = true ->
  strict_eq_str lastStatus "left" = true ->
  get conversation "integrationId" = Ok integrationId ->
  extern E Conversations_changeCustomerStatus
    [VStr "joined"; customerId; integrationId] = Ok joined ->
  iterate joined = Ok messages ->
  extern E conversationNotifReceivers [conversation; customerId] = Ok receivers ->
  receiveWidgetNotification E arg
  = ([find_conversation; read_last_status;
      ECall redis_set [VStr ("customer_last_status_" ++ customer); VStr "joined"];
      ECall Conversations_changeCustomerStatus
        [VStr "joined"; customerId; integrationId]]
     ++ map publish_inserted messages
     ++ [ECall graphqlPubsub_publish
           [VStr "customerConnectionChanged";
            VObj [("customerConnectionChanged",
                   VObj [("_id", customerId); ("status", VStr "connected")])]];
         ECall conversationNotifReceivers [conversation; customerId];
         notify_mobile receivers;
         publish_inserted payload],
     Ok tt).
Proof.
  intros Hsome Hleft Hintegration Hjoined Hmessages Hreceivers.
  enter. rewrite Hsome, Hleft.
  cbn beta iota zeta delta [bind eval emit fire call ret app].
  run_with Hintegration. run_with Hjoined. run_with Hmessages.
  change (for_each messages _)
    with (for_each messages (fun message =>
            fire graphqlPubsub_publish
              [VStr "conversationMessageInserted";
               VObj [("conversationMessageInserted", message)]])).
  rewrite for_each_fire.
  cbn beta iota zeta delta [bind eval emit fire call ret].
  run_with Hreceivers. leave.
  unfold publish_inserted. rewrite <- !app_assoc. reflexivity.
Qed.

(** X27.  A message inserted by a customer whose id does not convert to
    a string (an object that has a [toString] property of its own): the
    handler has looked the conversation up when it throws on the key of
    the customer's last status; redis is not asked, nothing is written,
    notified or published. *)
Theorem inserted_by_unprintable_customer (e : value) :
  ToString E customerId = Throw e ->
  receiveWidgetNotification E arg = ([find_conversation], Throw e).
Proof.
  intros Hkey.
  unfold receiveWidgetNotification;
  run_with arg_action; run_with arg_data; rewrite not_under_test;
  simpl strict_eq_str; cbv iota;
  run_with data_trigger; simpl strict_eq_str; cbv iota;
  run_with data_payload; run_with payload_customerId;
  run_with payload_conversationId; run_with payload_content;
  run_with found; run_with Hkey. reflexivity.
Qed.

End Inserted.

Lemma inserted_in_unknown_conversation_witness :
  receiveWidgetNotification (Scenarios.production false VNull)
    (Scenarios.inserted "cust-1")
  = ([find_conversation (VStr "conv-1");
      read_last_status "cust-1";
      publish_inserted (VObj [("customerId", VStr "cust-1");
                              ("conversationId", VStr "conv-1");
                              ("content", VStr "hello")])],
     Ok tt).
Proof.
  eapply (inserted_in_unknown_conversation (Scenarios.production false VNull)
            (Scenarios.inserted "cust-1"));
    reflexivity.
Defined.

Lemma inserted_by_present_customer_witness :
  receiveWidgetNotification (Scenarios.production true (VStr "joined"))
    (Scenarios.inserted "cust-1")
  = ([find_conversation (VStr "conv-1");
      read_last_status "cust-1";
      ECall conversationNotifReceivers [Scenarios.conversation; VStr "cust-1"];
      notify_mobile (VStr "cust-1") (VStr "conv-1") (VStr "hello")
        (VArr [VStr "user-1"]);
      publish_inserted (VObj [("customerId", VStr "cust-1");
                              ("conversationId", VStr "conv-1");
                              ("content", VStr "hello")])],
     Ok tt).
Proof.
  eapply (inserted_by_present_customer (Scenarios.production true (VStr "joined"))
            (Scenarios.inserted "cust-1"));
    reflexivity.
Defined.

Lemma inserted_by_returning_customer_witness :
  receiveWidgetNotification (Scenarios.production true (VStr "left"))
    (Scenarios.inserted "cust-1")
  = ([find_conversation (VStr "conv-1");
      read_last_status "cust-1";
      ECall redis_set [VStr "customer_last_status_cust-1"; VStr "joined"];
      ECall Conversations_changeCustomerStatus
        [VStr "joined"; VStr "cust-1"; VStr "int-1"]]
     ++ map publish_inserted Scenarios.joined_messages
     ++ [ECall graphqlPubsub_publish
           [VStr "customerConnectionChanged";
            VObj [("customerConnectionChanged",
                   VObj [("_id", VStr "cust-1"); ("status", VStr "connected")])]];
         ECall conversationNotifReceivers [Scenarios.conversation; VStr "cust-1"];
         notify_mobile (VStr "cust-1") (VStr "conv-1") (VStr "hello")
           (VArr [VStr "user-1"]);
         publish_inserted (VObj [("customerId", VStr "cust-1");
                                 ("conversationId", VStr "conv-1");
                                 ("content", VStr "hello")])],
     Ok tt).
Proof.
  eapply (inserted_by_returning_customer (Scenarios.production true (VStr "left"))
            (Scenarios.inserted "cust-1")
            _ _ (VStr "cust-1") (VStr "conv-1") (VStr "hello") Scenarios.conversation
            (VStr "left") "cust-1"
            eq_refl eq_refl eq_refl eq_refl eq_refl eq_refl eq_refl eq_refl
            eq_refl eq_refl eq_refl (VStr "int-1") (VArr Scenarios.joined_messages)
            (VArr [VStr "user-1"]) Scenarios.joined_messages);
    reflexivity.
Defined.

Lemma inserted_by_unprintable_customer_witness :
  receiveWidgetNotification (Scenarios.production true (VStr "left"))
    (VObj [("action", VStr "callPublish");
           ("data", VObj [("trigger", VStr "conversationMessageInserted");
                          ("payload",
                           VObj [("customerId", VObj [("toString", VNum (Int 1))]);
                                 ("conversationId", VStr "conv-1");
                                 ("content", VStr "hello")])])])
  = ([find_conversation (VStr "conv-1")],
     Throw (TypeError "Cannot convert object to primitive value")).
Proof.
  eapply (inserted_by_unprintable_customer (Scenarios.production true (VStr "left")));
    reflexivity.
Defined.

(** X10.  Whatever it is given and however its collaborators answer, the
    widget handler only calls the database, redis, the subscription
    publisher, the notification helpers and the activity log: it never
    uses the channel (no acknowledgement, no publication to a queue, no
    subscription, no queue deleted), never settles an RPC call, and
    never calls the RPC or integrations handlers, the logger or
    amqplib. *)
Theorem widget_footprint (E : env) (arg : value) :
  Forall widget_event (events (receiveWidgetNotification E arg)).
Proof.
  unfold receiveWidgetNotification, fire.
  repeat lazymatch goal with
    | |- Forall _ (events (bind _ _)) => apply Forall_events_bind; [| intros ?]
    | |- Forall _ (events (eval _)) => apply Forall_events_eval
    | |- Forall _ (events (ret _)) => apply Forall_events_ret
    | |- Forall _ (events (for_each _ _)) => apply Forall_events_for_each; intros ?
    | |- Forall _ (events (call _ _ _)) => apply Forall_events_call; reflexivity
    | |- Forall _ (events (emit _)) => apply Forall_events_emit; reflexivity
    | |- Forall _ (events (if ?b then _ else _)) => destruct b
    end.
Qed.




(** X12.  [sendRPCMessage(undefined)] declares the reply queue and
    subscribes to it, then fails to build the request: nothing is
    published, and the promise of the call is neither resolved nor
    rejected by the call itself. *)
Theorem sendRPCMessage_without_message (p : nat) (id q : string) :
  events (sendRPCMessage p id q VUndefined)
  = [ENewPromise p; EAssertQueue EmptyString true;
     EConsume q (on_rpc_reply p id q) true]
  /\ (exists e, result (sendRPCMessage p id q VUndefined) = Throw e)
  /\ forall w, promise_state_of p (w ++ events (sendRPCMessage p id q VUndefined))
               = promise_state_of p w.
Proof.
  split; [reflexivity |]. split; [eexists; reflexivity |].
  intros w. rewrite promise_state_of_app. simpl.
  destruct (promise_state_of p w); reflexivity.
Qed.

(** X13.  When the broker cannot be reached, or the channel cannot be
    opened, [initConsumer] logs the message of the error and returns
    normally: no queue is declared, no callback is registered, and a
    delivery finds nothing to run. *)
Theorem initConsumer_failure (E : env) (e message : value) :
  get e "message" = Ok message ->
  (extern E amqplib_connect [VStr (host E)] = Throw e ->
   initConsumer E
   = ([ECall amqplib_connect [VStr (host E)]; ECall debugBase [message]], Ok tt)
   /\ registered (started E) = []
   /\ forall q msg, deliver E q msg (started E) = started E)
  /\
  (forall connection,
     extern E amqplib_connect [VStr (host E)] = Ok connection ->
     extern E connection_createChannel [] = Throw e ->
     initConsumer E
     = ([ECall amqplib_connect [VStr (host E)];
         ECall connection_createChannel [];
         ECall debugBase [message]], Ok tt)
     /\ registered (started E) = []
     /\ forall q msg, deliver E q msg (started E) = started E).
Proof.
  intros Hmessage. split.
  - intros Hconnect.
    match goal with |- ?init /\ _ => assert (Hinit : init) end.
    { unfold initConsumer, call, fire, eval, emit, bind, try_catch.
      rewrite Hconnect, Hmessage. reflexivity. }
    assert (Hreg : registered (started E) = [])
      by (unfold started; rewrite Hinit; reflexivity).
    split; [exact Hinit |]. split; [exact Hreg |].
    intros q msg. unfold deliver. rewrite Hreg. reflexivity.
  - intros connection Hconnect Hchannel.
    match goal with |- ?init /\ _ => assert (Hinit : init) end.
    { unfold initConsumer, call, fire, eval, emit, bind, try_catch.
      rewrite Hconnect, Hchannel, Hmessage. reflexivity. }
    assert (Hreg : registered (started E) = [])
      by (unfold started; rewrite Hinit; reflexivity).
    split; [exact Hinit |]. split; [exact Hreg |].
    intros q msg. unfold deliver. rewrite Hreg. reflexivity.
Qed.

Lemma initConsumer_failure_witness :
  initConsumer Examples.unreachable
  = ([ECall amqplib_connect [VStr "amqp://broker:5672"];
      ECall debugBase [VStr "connect ECONNREFUSED"]], Ok tt)
  /\
  initConsumer Scenarios.no_channel
  = ([ECall amqplib_connect [VStr "amqp://localhost"];
      ECall connection_createChannel [];
      ECall debugBase [VStr "channel refused"]], Ok tt).
Proof.
  split.
  - apply (proj1 (initConsumer_failure Examples.unreachable
                    (new_Error "connect ECONNREFUSED") (VStr "connect ECONNREFUSED")
                    eq_refl)).
    reflexivity.
  - apply (proj2 (initConsumer_failure Scenarios.no_channel
                    (new_Error "channel refused") (VStr "channel refused")
                    eq_refl) VUndefined).
    + reflexivity.
    + reflexivity.
Defined.

(** X14.  A reply that carries the correlation id of the call but whose
    body is not JSON, or is the JSON [null], makes the callback throw
    before it settles anything: the call is neither resolved nor
    rejected and the reply queue is not deleted. *)
Theorem rpc_reply_undecodable (E : env) (p : nat) (id q : string) (msg : message) :
  correlationId (properties msg) = Some id ->
  (exists e, JSON_parse E (content msg) = Throw e) \/
  JSON_parse E (content msg) = Ok VNull ->
  events (rpc_reply E p id q (Some msg)) = []
  /\ exists e, result (rpc_reply E p id q (Some msg)) = Throw e.
Proof.
  intros Hid Hbody.
  assert (Hsame : same_string (correlationId (properties msg)) id = true)
    by (rewrite Hid; simpl; apply String.eqb_refl).
  unfold rpc_reply. rewrite Hsame.
  destruct Hbody as [[e Hparse] | Hparse]; rewrite Hparse; simpl;
    split; try reflexivity; eexists; reflexivity.
Qed.

Lemma rpc_reply_undecodable_witness :
  events (rpc_reply Examples.quiet 0 "c-1" "amq.gen-A"
            (Some {| content := "null"; deliveryTag := 1;
                     properties := {| correlationId := Some "c-1"; replyTo := None |} |}))
  = [].
Proof.
  refine (proj1 (rpc_reply_undecodable Examples.quiet 0 "c-1" "amq.gen-A"
                   {| content := "null"; deliveryTag := 1;
                      properties := {| correlationId := Some "c-1"; replyTo := None |} |}
                   eq_refl _)).
  right. vm_compute. reflexivity.
Defined.

(** X15.  Only the status 'success' resolves.  A matching reply that
    decodes to anything but [null] and whose status is not exactly the
    string 'success' (another string, another type, no status at all)
    rejects the call with the reply's [errorMessage], which is
    [undefined] when the reply has none, and the reply queue is
    deleted. *)
Theorem rpc_reply_rejects_unless_success (E : env) (p : nat) (id q : string)
    (msg : message) (res status : value) :
  correlationId (properties msg) = Some id ->
  JSON_parse E (content msg) = Ok res ->
  get res "status" = Ok status ->
  strict_eq_str status "success" = false ->
  exists errorMessage,
    get res "errorMessage" = Ok errorMessage /\
    rpc_reply E p id q (Some msg)
    = ([EReject p errorMessage; EDeleteQueue q], Ok tt).
Proof.
  intros Hid Hparse Hstatus Hother.
  assert (Hsame : same_string (correlationId (properties msg)) id = true)
    by (rewrite Hid; simpl; apply String.eqb_refl).
  assert (Hu : res <> VUndefined) by (intros ->; discriminate Hstatus).
  assert (Hn : res <> VNull) by (intros ->; discriminate Hstatus).
  destruct (get_defined res "errorMessage" Hu Hn) as [em Hem].
  exists em. split; [exact Hem |].
  unfold rpc_reply. rewrite Hsame. run_with Hparse. run_with Hstatus.
  rewrite Hother. run_with Hem. reflexivity.
Qed.

Lemma rpc_reply_rejects_unless_success_witness :
  rpc_reply Examples.quiet 0 "c-1" "amq.gen-A"
    (Some (Examples.reply 1 "c-1" (VObj [("data", VStr "pong")])))
  = ([EReject 0 VUndefined; EDeleteQueue "amq.gen-A"], Ok tt).
Proof.
  destruct (rpc_reply_rejects_unless_success Examples.quiet 0 "c-1" "amq.gen-A"
              (Examples.reply 1 "c-1" (VObj [("data", VStr "pong")]))
              (VObj [("data", VStr "pong")]) VUndefined
              eq_refl ltac:(vm_compute; reflexivity) eq_refl eq_refl)
    as [em [Hem Hrun]].
  injection Hem as <-. exact Hrun.
Defined.

(** The messages a trace acknowledges, in order. *)
Fixpoint acks (t : list event) : list message :=
  match t with
  | [] => []
  | EAck m :: rest => m :: acks rest
  | _ :: rest => acks rest
  end.

(** What a callback of [initConsumer] may do with the message [msg]:
    call collaborators, acknowledge [msg] and, for the RPC queue only,
    publish to the queue [msg] asks the reply on, under the correlation
    id of [msg]. *)
Definition dispatcher_event (c : consumer) (msg : message) (e : event) : Prop :=
  match e with
  | ECall _ _ => True
  | EAck m => m = msg
  | ESendToQueue queue _ options =>
      c = on_rpc_queue /\ queue = replyTo (properties msg) /\
      options = {| correlationId := correlationId (properties msg); replyTo := None |}
  | _ => False
  end.

Lemma acks_app (t t' : list event) : acks (t ++ t') = acks t ++ acks t'.
Proof.
  induction t as [| e t IH]; simpl; [reflexivity |].
  destruct e; simpl; congruence.
Qed.

Lemma acks_calls (t : list event) : Forall is_call t -> acks t = [].
Proof.
  induction 1 as [| e t He _ IH]; simpl; [reflexivity |].
  destruct e; simpl in He; try contradiction. exact IH.
Qed.

Lemma dispatcher_events_inert (c : consumer) (msg : message) (t : list event) :
  Forall (dispatcher_event c msg) t ->
  forall w p,
    promise_state_of p (w ++ t) = promise_state_of p w /\
    deleted_queues (w ++ t) = deleted_queues w /\
    registered (w ++ t) = registered w /\
    promises (w ++ t) = promises w.
Proof.
  intros Ht w p.
  assert (Hquiet : promise_state_of p t = Pending /\ deleted_queues t = [] /\
                   registered t = [] /\ promises t = 0).
  { induction Ht as [| e t He _ IH]; simpl; [auto |].
    destruct e; simpl in He; try contradiction; exact IH. }
  destruct Hquiet as [Hp [Hd [Hr Hn]]].
  rewrite promise_state_of_app, deleted_queues_app, registered_app, Hp, Hd, Hr.
  rewrite !app_nil_r. repeat split.
  - destruct (promise_state_of p w); reflexivity.
  - clear -Hn. induction w as [| e w IH]; simpl; [exact Hn |].
    destruct e; simpl; congruence.
Qed.

(** X17.  A start-up callback ignores the cancellation of its consumer:
    given [null] it does nothing, so that a well-known queue whose
    consumer the broker cancels goes on unserved without a trace, where
    the callback of a reply queue rejects its call. *)
Theorem cancellation_ignored (E : env) (c : consumer) (q : string) (w : world) :
  startup c = true ->
  consumer_of q (registered w) = Some c ->
  run_consumer E c None = ([], Ok tt) /\ deliver E q None w = w.
Proof.
  intros Hstartup Hc.
  assert (Hrun : run_consumer E c None = ([], Ok tt))
    by (destruct c; try discriminate Hstartup; reflexivity).
  split; [exact Hrun |].
  unfold deliver. rewrite Hc, Hrun. apply app_nil_r.
Qed.

Lemma cancellation_ignored_witness :
  deliver Examples.quiet "sparkNotification" None (started Examples.quiet)
  = started Examples.quiet.
Proof.
  apply (proj2 (cancellation_ignored Examples.quiet on_sparkNotification
                  "sparkNotification" (started Examples.quiet) eq_refl eq_refl)).
Defined.

(** X18.  A start-up callback acknowledges the message it was given once
    when it runs to its end and not at all when it fails; it never
    acknowledges twice, nor any other message. *)
Theorem acknowledged_once_when_completed (E : env) (c : consumer) (msg : message) :
  startup c = true ->
  acks (events (run_consumer E c (Some msg)))
  = match result (run_consumer E c (Some msg)) with
    | Ok _ => [msg]
    | Throw _ => []
    end.
Proof.
  intros Hstartup. destruct c; try discriminate Hstartup; unfold run_consumer.
  - unfold rpc_queue, fire, call, eval, emit, bind.
    destruct (JSON_parse E (content msg)) as [payload | e]; [| reflexivity].
    destruct (extern E receiveRpcMessage [payload]) as [response | e]; [| reflexivity].
    destruct (Buffer_from (JSON.stringify response)); reflexivity.
  - unfold callPublish, fire, eval, emit, bind.
    destruct (JSON_parse E (content msg)) as [params | e]; [| reflexivity].
    destruct (get params "name"); [| reflexivity].
    destruct (get params "data"); reflexivity.
  - destruct (JSON_parse E (content msg)) as [payload | e] eqn:Hparse.
    + rewrite (widgetNotification_run E msg payload Hparse).
      pose proof (acks_calls _ (receiveWidgetNotification_calls E payload)) as Hcalls.
      destruct (result (receiveWidgetNotification E payload));
        simpl; [rewrite acks_app |]; rewrite Hcalls; reflexivity.
    + unfold widgetNotification, eval, bind. rewrite Hparse. reflexivity.
  - unfold integrationsNotification, call, eval, emit, bind.
    destruct (JSON_parse E (content msg)) as [payload | e]; [| reflexivity].
    destruct (extern E receiveIntegrationsNotification [payload]); reflexivity.
  - unfold set_donot_disturb, call, eval, emit, bind.
    destruct (JSON_parse E (content msg)) as [payload | e]; [| reflexivity].
    destruct (get payload "customerId") as [customerId | e]; [| reflexivity].
    destruct (extern E Customers_updateOne _); reflexivity.
  - unfold sparkNotification, detached, fire, eval, emit, bind.
    destruct (JSON_parse E (content msg)) as [payload | e]; [| reflexivity].
    destruct (delete payload "subdomain") as [data | e]; [| reflexivity].
    destruct (extern E RobotEntries_createEntry [data]) as [entry | e]; [reflexivity |].
    destruct (get e "message"); reflexivity.
Qed.

Lemma acknowledged_once_when_completed_witness :
  acks (events (run_consumer Examples.failing on_set_donot_disturb
                  (Some (Examples.plain 9 "{}"))))
  = []
  /\
  acks (events (run_consumer Examples.failing on_sparkNotification
                  (Some (Examples.plain 9 "{}"))))
  = [Examples.plain 9 "{}"].
Proof.
  split.
  - rewrite (acknowledged_once_when_completed Examples.failing on_set_donot_disturb
               (Examples.plain 9 "{}") eq_refl).
    vm_compute. reflexivity.
  - rewrite (acknowledged_once_when_completed Examples.failing on_sparkNotification
               (Examples.plain 9 "{}") eq_refl).
    vm_compute. reflexivity.
Defined.

Lemma run_consumer_dispatcher_events (E : env) (c : consumer) (msg : message) :
  startup c = true ->
  Forall (dispatcher_event c msg) (events (run_consumer E c (Some msg))).
Proof.
  intros Hstartup. destruct c; try discriminate Hstartup; unfold run_consumer;
    [ unfold rpc_queue | unfold callPublish | unfold widgetNotification
    | unfold integrationsNotification | unfold set_donot_disturb
    | unfold sparkNotification ];
    unfold fire;
    repeat lazymatch goal with
      | |- Forall _ (events (bind _ _)) => apply Forall_events_bind; [| intros ?]
      | |- Forall _ (events (eval _)) => apply Forall_events_eval
      | |- Forall _ (events (detached _)) => apply Forall_events_detached
      | |- Forall _ (events (call _ _ _)) => apply Forall_events_call; exact I
      | |- Forall _ (events (emit _)) =>
          apply Forall_events_emit; simpl; auto
      | |- Forall _ (events (match ?o with Ok _ => _ | Throw _ => _ end)) => destruct o
      end.
  eapply Forall_impl; [| apply receiveWidgetNotification_calls].
  intros [] He; simpl in *; tauto.
Qed.

(** X19.  The callbacks of [initConsumer] keep to their message: all
    they do is call collaborators, acknowledge the message they were
    given and, on the RPC queue, publish one reply addressed as the
    message asks.  They declare, subscribe to and delete no queue and
    settle no RPC call, so a delivery on a well-known queue leaves every
    call in flight and every registration as it was. *)
Theorem dispatcher_footprint (E : env) (c : consumer) (msg : message) :
  startup c = true ->
  Forall (dispatcher_event c msg) (events (run_consumer E c (Some msg)))
  /\ forall w p,
       promise_state_of p (w ++ events (run_consumer E c (Some msg)))
       = promise_state_of p w /\
       deleted_queues (w ++ events (run_consumer E c (Some msg))) = deleted_queues w /\
       registered (w ++ events (run_consumer E c (Some msg))) = registered w.
Proof.
  intros Hstartup.
  pose proof (run_consumer_dispatcher_events E c msg Hstartup) as Hall.
  split; [exact Hall |].
  intros w p.
  destruct (dispatcher_events_inert c msg _ Hall w p) as [Hp [Hd [Hr _]]].
  auto.
Qed.

Lemma dispatcher_footprint_witness :
  Forall (dispatcher_event on_rpc_queue
            (Examples.request 5 "c-9" "amq.gen-Z" (VObj [("action", VStr "ping")])))
    (events (run_consumer Examples.quiet on_rpc_queue
               (Some (Examples.request 5 "c-9" "amq.gen-Z"
                        (VObj [("action", VStr "ping")]))))).
Proof.
  apply (proj1 (dispatcher_footprint Examples.quiet on_rpc_queue
                  (Examples.request 5 "c-9" "amq.gen-Z" (VObj [("action", VStr "ping")]))
                  eq_refl)).
Defined.

(** X20.  One invocation of the callback of a reply queue does one of
    four things: nothing; resolve its own call and delete its own
    queue; reject its own call and delete its own queue; or reject its
    own call with the cancellation error.  It never acknowledges (the
    subscription is [noAck]), never publishes, and never touches the
    promise or the queue of another call. *)
Theorem rpc_reply_footprint (E : env) (p : nat) (id q : string) (msg : option message) :
  events (rpc_reply E p id q msg) = []
  \/ (exists data, events (rpc_reply E p id q msg) = [EResolve p data; EDeleteQueue q])
  \/ (exists reason, events (rpc_reply E p id q msg) = [EReject p reason; EDeleteQueue q])
  \/ events (rpc_reply E p id q msg)
     = [EReject p (new_Error "consumer cancelled by rabbitmq")].
Proof.
  destruct msg as [msg |]; [| right; right; right; reflexivity].
  unfold rpc_reply, eval, emit, bind.
  destruct (same_string (correlationId (properties msg)) id); [| left; reflexivity].
  destruct (JSON_parse E (content msg)) as [res | e]; [| left; reflexivity].
  destruct (get res "status") as [status | e]; [| left; reflexivity].
  destruct (strict_eq_str status "success").
  - destruct (get res "data") as [data | e]; [| left; reflexivity].
    right. left. exists data. reflexivity.
  - destruct (get res "errorMessage") as [reason | e]; [| left; reflexivity].
    right. right. left. exists reason. reflexivity.
Qed.

Lemma lookup_filter_same (k : string) (fields : list (string * value)) :
  lookup k (filter (fun kv => negb (String.eqb (fst kv) k)) fields) = None.
Proof.
  induction fields as [| [k' v] fields IH]; simpl; [reflexivity |].
  destruct (String.eqb k' k) eqn:Hk; simpl; [exact IH |].
  rewrite Hk. exact IH.
Qed.

Lemma lookup_filter_other (k k0 : string) (fields : list (string * value)) :
  k <> k0 ->
  lookup k (filter (fun kv => negb (String.eqb (fst kv) k0)) fields) = lookup k fields.
Proof.
  intros Hk. induction fields as [| [k' v] fields IH]; simpl; [reflexivity |].
  destruct (String.eqb k' k0) eqn:Hk0; simpl.
  - apply String.eqb_eq in Hk0. subst k'.
    destruct (String.eqb_spec k0 k); [congruence | exact IH].
  - rewrite IH. reflexivity.
Qed.

(** X21.  The callback of 'sparkNotification', given a body that decodes
    to anything but [null]: the entry handed to
    [RobotEntries.createEntry] is the decoded body without its
    [subdomain], every other property as it was; the message is
    acknowledged right after the call, before the entry is settled and
    whatever becomes of it; the one line logged afterwards is 'success'
    or the message of the failure. *)
Theorem spark_entry (E : env) (msg : message) (payload : value) :
  JSON_parse E (content msg) = Ok payload ->
  payload <> VUndefined -> payload <> VNull ->
  exists data,
    delete payload "subdomain" = Ok data
    /\ get data "subdomain" = Ok VUndefined
    /\ (forall k, k <> "subdomain" -> get data k = get payload k)
    /\ sparkNotification E (Some msg)
       = ([ECall debugBase [VStr ("Received spark notification " ++ content msg)%string];
           ECall RobotEntries_createEntry [data];
           EAck msg]
          ++ match extern E RobotEntries_createEntry [data] with
             | Ok _ => [ECall debugBase [VStr "success"]]
             | Throw e =>
                 match get e "message" with
                 | Ok message => [ECall debugBase [message]]
                 | Throw _ => []
                 end
             end,
          Ok tt).
Proof.
  intros Hparse Hu Hn.
  assert (Hdata : exists data,
             delete payload "subdomain" = Ok data
             /\ get data "subdomain" = Ok VUndefined
             /\ forall k, k <> "subdomain" -> get data k = get payload k).
  { destruct payload as [| | b | n | s | items | fields | name message];
      try contradiction;
      try (eexists; split; [reflexivity |]; split; [reflexivity | reflexivity]).
    exists (VObj (filter (fun kv => negb (String.eqb (fst kv) "subdomain")) fields)).
    split; [reflexivity |]. split.
    - simpl. rewrite lookup_filter_same. reflexivity.
    - intros k Hk. simpl. rewrite (lookup_filter_other k "subdomain" fields Hk).
      reflexivity. }
  destruct Hdata as [data [Hdelete [Hsub Hrest]]].
  exists data. split; [exact Hdelete |]. split; [exact Hsub |]. split; [exact Hrest |].
  unfold sparkNotification, detached, fire, eval, emit, bind.
  rewrite Hparse, Hdelete. simpl.
  destruct (extern E RobotEntries_createEntry [data]) as [entry | e]; [reflexivity |].
  destruct (get e "message"); reflexivity.
Qed.

Lemma spark_entry_witness :
  exists data,
    delete (VObj [("subdomain", VStr "acme"); ("action", VStr "mergeCustomers")])
      "subdomain" = Ok data
    /\ get data "subdomain" = Ok VUndefined
    /\ get data "action" = Ok (VStr "mergeCustomers").
Proof.
  destruct (spark_entry Examples.failing
              (Examples.plain 2
                 (Examples.text (VObj [("subdomain", VStr "acme");
                                       ("action", VStr "mergeCustomers")])))
              (VObj [("subdomain", VStr "acme"); ("action", VStr "mergeCustomers")])
              ltac:(vm_compute; reflexivity) ltac:(discriminate) ltac:(discriminate))
    as [data [Hdelete [Hsub [Hrest _]]]].
  exists data. split; [exact Hdelete |]. split; [exact Hsub |].
  rewrite (Hrest "action" ltac:(discriminate)). reflexivity.
Defined.

(** X22.  The callback of 'engages-api:set-donot-disturb', given a body
    that decodes to anything but [null]: it asks for [doNotDisturb] to
    be set to 'Yes' on the customer whose [_id] is the body's
    [customerId] ([undefined] when the body has none), once, and
    acknowledges the message only when that update succeeds. *)
Theorem donot_disturb_update (E : env) (msg : message) (payload : value) :
  JSON_parse E (content msg) = Ok payload ->
  payload <> VUndefined -> payload <> VNull ->
  exists customerId,
    get payload "customerId" = Ok customerId /\
    set_donot_disturb E (Some msg)
    = match extern E Customers_updateOne
              [VObj [("_id", customerId)];
               VObj [("$set", VObj [("doNotDisturb", VStr "Yes")])]]
      with
      | Ok _ =>
          ([ECall Customers_updateOne
              [VObj [("_id", customerId)];
               VObj [("$set", VObj [("doNotDisturb", VStr "Yes")])]];
            EAck msg], Ok tt)
      | Throw e =>
          ([ECall Customers_updateOne
              [VObj [("_id", customerId)];
               VObj [("$set", VObj [("doNotDisturb", VStr "Yes")])]]], Throw e)
      end.
Proof.
  intros Hparse Hu Hn.
  destruct (get_defined payload "customerId" Hu Hn) as [customerId Hid].
  exists customerId. split; [exact Hid |].
  unfold set_donot_disturb, call, eval, emit, bind. rewrite Hparse, Hid.
  destruct (extern E Customers_updateOne _); reflexivity.
Qed.

Lemma donot_disturb_update_witness :
  set_donot_disturb Examples.quiet (Some (Examples.plain 6 "{}"))
  = ([ECall Customers_updateOne
        [VObj [("_id", VUndefined)];
         VObj [("$set", VObj [("doNotDisturb", VStr "Yes")])]];
      EAck (Examples.plain 6 "{}")], Ok tt).
Proof.
  destruct (donot_disturb_update Examples.quiet (Examples.plain 6 "{}") (VObj [])
              ltac:(vm_compute; reflexivity) ltac:(discriminate) ltac:(discriminate))
    as [customerId [Hid Hrun]].
  injection Hid as <-. exact Hrun.
Defined.

(** X23.  Request and reply fit together.  The request [sendRPCMessage]
    publishes carries the correlation id and the reply queue of the
    call; when a process running [initConsumer] gets a message with
    that body and those properties on its RPC queue and its handler
    returns a response, the reply it publishes goes to the reply queue
    of the call under the correlation id of the call; and when that
    reply, decoded by the caller to the response, says 'success', the
    callback of the call resolves it with the response's data and
    deletes the reply queue. *)
Theorem rpc_round_trip (client server : env) (p : nat) (id q : string)
    (message payload response data : value) (request reply : string) (tag tag' : N) :
  JSON.stringify message = Some request ->
  JSON.stringify response = Some reply ->
  sendRPCMessage p id q message
  = ([ENewPromise p;
      EAssertQueue EmptyString true;
      EConsume q (on_rpc_reply p id q) true;
      ESendToQueue (Some "rpc_queue:erxes-api") request
        {| correlationId := Some id; replyTo := Some q |}], Ok tt)
  /\
  (JSON_parse server request = Ok payload ->
   extern server receiveRpcMessage [payload] = Ok response ->
   acks (events (rpc_queue server
                   (Some {| content := request; deliveryTag := tag;
                            properties := {| correlationId := Some id;
                                             replyTo := Some q |} |})))
   = [{| content := request; deliveryTag := tag;
         properties := {| correlationId := Some id; replyTo := Some q |} |}]
   /\
   In (ESendToQueue (Some q) reply {| correlationId := Some id; replyTo := None |})
      (events (rpc_queue server
                 (Some {| content := request; deliveryTag := tag;
                          properties := {| correlationId := Some id;
                                           replyTo := Some q |} |}))))
  /\
  (JSON_parse client reply = Ok response ->
   get response "status" = Ok (VStr "success") ->
   get response "data" = Ok data ->
   rpc_reply client p id q
     (Some {| content := reply; deliveryTag := tag';
              properties := {| correlationId := Some id; replyTo := None |} |})
   = ([EResolve p data; EDeleteQueue q], Ok tt)).
Proof.
  intros Hrequest Hreply. split; [| split].
  - unfold sendRPCMessage. rewrite Hrequest. reflexivity.
  - intros Hparse Hhandler.
    unfold rpc_queue, fire, call, eval, emit, bind. simpl content. simpl properties.
    rewrite Hparse, Hhandler, Hreply. simpl. split; [reflexivity |].
    right. right. left. reflexivity.
  - intros Hparse Hstatus Hdata.
    unfold rpc_reply. simpl properties. simpl content. simpl same_string.
    rewrite String.eqb_refl. run_with Hparse. run_with Hstatus.
    simpl strict_eq_str. cbv iota. run_with Hdata. reflexivity.
Qed.

Lemma rpc_round_trip_witness :
  rpc_reply Examples.quiet 0 "c-1" "amq.gen-A"
    (Some {| content := Examples.text Examples.pong; deliveryTag := 8;
             properties := {| correlationId := Some "c-1"; replyTo := None |} |})
  = ([EResolve 0 (VStr "pong"); EDeleteQueue "amq.gen-A"], Ok tt).
Proof.
  apply (proj2 (proj2
           (rpc_round_trip Examples.quiet Examples.quiet 0 "c-1" "amq.gen-A"
              (VObj [("op", VStr "ping")]) (VObj [("op", VStr "ping")])
              Examples.pong (VStr "pong")
              (Examples.text (VObj [("op", VStr "ping")]))
              (Examples.text Examples.pong) 7 8 eq_refl eq_refl))).
  - vm_compute. reflexivity.
  - reflexivity.
  - reflexivity.
Defined.

(** *** Calls in flight

    The promises of the RPC calls are numbered in the order of the
    calls.  In a world the process can reach, every settlement and every
    reply callback refers to a promise already created, so that a new
    call starts pending; and what happens to the other queues and the
    other calls leaves a call in flight as it is. *)

From Stdlib Require Import Lia.

Definition promise_of (c : consumer) : option nat :=
  match c with
  | on_rpc_reply p _ _ => Some p
  | _ => None
  end.

Definition below (n : nat) (e : event) : Prop :=
  match e with
  | EResolve p _ | EReject p _ | ENewPromise p => p < n
  | EConsume _ c _ => forall p, promise_of c = Some p -> p < n
  | _ => True
  end.

(** Every promise the trace mentions has been created. *)
Definition numbered (w : world) : Prop := Forall (below (promises w)) w.

(** The call with promise [p] and reply queue [q] is in flight, and no
    callback registered on another queue holds its promise. *)
Definition in_flight (p : nat) (q : string) (w : world) : Prop :=
  p < promises w /\
  promise_state_of p w = Pending /\
  Forall (fun qc => fst qc = q \/ promise_of (snd qc) <> Some p) (registered w).

(** The actions that deliver nothing on queue [q]. *)
Definition elsewhere (q : string) (a : action) : Prop :=
  match a with
  | Deliver q' _ => q' <> q
  | _ => True
  end.

Definition succeeds (E : env) (e : event) : bool :=
  match e with
  | ECall f args =>
      match extern E f args with
      | Ok _ => true
      | Throw _ => false
      end
  | _ => true
  end.

(** Nothing goes wrong in the action: the callback a delivery runs
    comes to its end and every collaborator it calls succeeds, an RPC
    call finds a request to send. *)
Definition untroubled (E : env) (w : world) (a : action) : bool :=
  match a with
  | Deliver q msg =>
      match consumer_of q (registered w) with
      | Some c =>
          match result (run_consumer E c msg) with
          | Ok _ => forallb (succeeds E) (events (run_consumer E c msg))
          | Throw _ => false
          end
      | None => true
      end
  | CallSendMessage _ _ => true
  | CallSendRPCMessage uuid q message =>
      match result (sendRPCMessage (promises w) uuid q message) with
      | Ok _ => true
      | Throw _ => false
      end
  end.

(** A run in which nothing goes wrong, so that no rejection and no
    exception is left to the runtime or to amqplib. *)
Fixpoint undisturbed (E : env) (w : world) (actions : list action) : bool :=
  match actions with
  | [] => true
  | a :: rest => untroubled E w a && undisturbed E (step E w a) rest
  end.

Lemma promises_app (w w' : world) : promises (w ++ w') = promises w + promises w'.
Proof.
  induction w as [| e w IH]; simpl; [reflexivity |].
  destruct e; simpl; congruence.
Qed.

Lemma below_mono (n m : nat) (e : event) : n <= m -> below n e -> below m e.
Proof.
  intros Hnm. destruct e; simpl; try tauto; try lia.
  intros H p Hp. specialize (H p Hp). lia.
Qed.

Lemma below_pending (n : nat) (w : world) :
  Forall (below n) w -> promise_state_of n w = Pending.
Proof.
  induction 1 as [| e w He _ IH]; simpl; [reflexivity |].
  destruct e; simpl in He; try exact IH;
    (destruct (Nat.eqb_spec promise n); [lia | exact IH]).
Qed.

Lemma consumer_of_In (q : string) (rs : list (string * consumer)) (c : consumer) :
  consumer_of q rs = Some c -> In (q, c) rs.
Proof.
  induction rs as [| [q' c'] rs IH]; simpl; [discriminate |].
  destruct (String.eqb_spec q' q).
  - intros [= ->]. left. congruence.
  - intros H. right. exact (IH H).
Qed.

Lemma consumer_of_fresh (q : string) (rs rs' : list (string * consumer)) (c : consumer) :
  consumer_of q rs = None ->
  consumer_of q (rs ++ (q, c) :: rs') = Some c.
Proof.
  induction rs as [| [q' c'] rs IH]; simpl.
  - intros _. rewrite String.eqb_refl. reflexivity.
  - destruct (String.eqb q' q); [discriminate | exact IH].
Qed.

Lemma registered_below (n : nat) (w : world) (q : string) (c : consumer) (p : nat) :
  Forall (below n) w -> In (q, c) (registered w) -> promise_of c = Some p -> p < n.
Proof.
  induction 1 as [| e w He _ IH]; simpl; [contradiction |].
  destruct e; try exact IH.
  simpl. intros [[= <- <-] | Hin] Hp; [exact (He p Hp) | exact (IH Hin Hp)].
Qed.

(** What a callback does stays with its own promise. *)
Lemma run_consumer_own_promise (E : env) (c : consumer) (msg : option message) :
  promises (events (run_consumer E c msg)) = 0
  /\ (forall n, (forall p, promise_of c = Some p -> p < n) ->
        Forall (below n) (events (run_consumer E c msg)))
  /\ (forall p, promise_of c <> Some p ->
        promise_state_of p (events (run_consumer E c msg)) = Pending).
Proof.
  destruct (startup c) eqn:Hstartup.
  - destruct msg as [msg |].
    + pose proof (run_consumer_dispatcher_events E c msg Hstartup) as Hall.
      split; [| split].
      * destruct (dispatcher_events_inert c msg _ Hall [] 0) as [_ [_ [_ Hn]]].
        exact Hn.
      * intros n _. eapply Forall_impl; [| exact Hall].
        intros [] He; simpl in *; tauto.
      * intros p _.
        destruct (dispatcher_events_inert c msg _ Hall [] p) as [Hp _].
        exact Hp.
    + assert (Hrun : run_consumer E c None = ([], Ok tt))
        by (destruct c; try discriminate Hstartup; reflexivity).
      rewrite Hrun. simpl. repeat split; constructor.
  - destruct c; try discriminate Hstartup. simpl.
    assert (Hcases :
      events (rpc_reply E promise correlationId0 queue msg) = []
      \/ (exists settle, events (rpc_reply E promise correlationId0 queue msg)
                         = [settle; EDeleteQueue queue]
                         /\ (exists v, settle = EResolve promise v
                                       \/ settle = EReject promise v))
      \/ events (rpc_reply E promise correlationId0 queue msg)
         = [EReject promise (new_Error "consumer cancelled by rabbitmq")]).
    { destruct msg as [msg |]; [| right; right; reflexivity].
      unfold rpc_reply, eval, emit, bind.
      destruct (same_string _ _); [| left; reflexivity].
      destruct (JSON_parse E (content msg)) as [res | e]; [| left; reflexivity].
      destruct (get res "status") as [status | e]; [| left; reflexivity].
      destruct (strict_eq_str status "success").
      - destruct (get res "data") as [data | e]; [| left; reflexivity].
        right. left. eexists. split; [reflexivity |]. exists data. now left.
      - destruct (get res "errorMessage") as [reason | e]; [| left; reflexivity].
        right. left. eexists. split; [reflexivity |]. exists reason. now right. }
    destruct Hcases as [-> | [[settle [-> [v [-> | ->]]]] | ->]]; simpl;
      (split; [reflexivity |]); split;
      try (intros n Hn; specialize (Hn promise eq_refl);
           repeat constructor; simpl; exact Hn);
      try (intros n Hn; constructor);
      intros p Hp;
      try reflexivity;
      (destruct (Nat.eqb_spec promise p); [congruence | reflexivity]).
Qed.

Lemma numbered_started (E : env) : numbered (started E).
Proof.
  unfold numbered, started, initConsumer, call, fire, eval, emit, bind, try_catch.
  destruct (extern E amqplib_connect _) as [connection | e].
  - destruct (extern E connection_createChannel _) as [channel | e].
    + simpl. repeat constructor; simpl; intros p Hp; discriminate.
    + destruct (get e "message"); simpl; repeat constructor.
  - destruct (get e "message"); simpl; repeat constructor.
Qed.

Lemma numbered_step (E : env) (w : world) (a : action) :
  numbered w -> numbered (step E w a).
Proof.
  unfold numbered. intros Hw.
  destruct a as [q msg | queueName data | uuid q message]; simpl.
  - unfold deliver. destruct (consumer_of q (registered w)) as [c |] eqn:Hc; [| exact Hw].
    destruct (run_consumer_own_promise E c msg) as [Hn [Hbelow _]].
    rewrite promises_app, Hn, Nat.add_0_r.
    apply Forall_app. split; [exact Hw |].
    apply Hbelow. intros p Hp.
    exact (registered_below _ w q c p Hw (consumer_of_In _ _ _ Hc) Hp).
  - destruct (channel E); [| exact Hw].
    rewrite promises_app.
    apply Forall_app. split.
    + eapply Forall_impl; [| exact Hw]. intros e. apply below_mono. lia.
    + unfold sendMessage, eval, emit, bind.
      destruct (Buffer_from _); simpl; repeat constructor.
  - destruct (channel E).
    + rewrite promises_app.
      assert (Hone : promises (events (sendRPCMessage (promises w) uuid q message)) = 1)
        by (unfold sendRPCMessage, eval, emit, bind;
            destruct (Buffer_from _); reflexivity).
      rewrite Hone. apply Forall_app. split.
      * eapply Forall_impl; [| exact Hw]. intros e. apply below_mono. lia.
      * unfold sendRPCMessage, eval, emit, bind.
        destruct (Buffer_from _); simpl; repeat constructor; simpl; try lia;
          intros p [= <-]; lia.
    + rewrite promises_app. simpl. apply Forall_app. split.
      * eapply Forall_impl; [| exact Hw]. intros e. apply below_mono. lia.
      * repeat constructor; simpl; lia.
Qed.

Lemma numbered_run (E : env) (actions : list action) (w : world) :
  numbered w -> numbered (run E w actions).
Proof.
  revert w. induction actions as [| a actions IH]; intros w Hw; simpl; [exact Hw |].
  apply IH, numbered_step, Hw.
Qed.

Lemma in_flight_step (E : env) (p : nat) (q : string) (w : world) (a : action) :
  in_flight p q w -> elsewhere q a -> in_flight p q (step E w a).
Proof.
  intros [Hp [Hpending Hothers]] Ha.
  destruct a as [q' msg | queueName data | uuid q' message]; simpl in *.
  - unfold deliver.
    destruct (consumer_of q' (registered w)) as [c |] eqn:Hc;
      [| repeat split; assumption].
    assert (Hc_other : promise_of c <> Some p).
    { rewrite Forall_forall in Hothers.
      destruct (Hothers _ (consumer_of_In _ _ _ Hc)) as [Hq | Hne];
        [simpl in Hq; contradiction | exact Hne]. }
    destruct (run_consumer_own_promise E c msg) as [Hn [_ Hquiet]].
    repeat split.
    + rewrite promises_app. lia.
    + rewrite promise_state_of_app, Hpending. apply Hquiet, Hc_other.
    + rewrite registered_app, registered_run_consumer, app_nil_r. exact Hothers.
  - destruct (channel E); [| repeat split; assumption].
    repeat split.
    + rewrite promises_app. lia.
    + rewrite promise_state_of_app, Hpending.
      unfold sendMessage, eval, emit, bind. destruct (Buffer_from _); reflexivity.
    + rewrite registered_app, registered_sendMessage, app_nil_r. exact Hothers.
  - destruct (channel E).
    + repeat split.
      * rewrite promises_app. lia.
      * rewrite promise_state_of_app, Hpending.
        unfold sendRPCMessage, eval, emit, bind.
        destruct (Buffer_from _); reflexivity.
      * rewrite registered_app, registered_sendRPCMessage.
        apply Forall_app. split; [exact Hothers |].
        constructor; [| constructor]. right. simpl. intros [= Heq]. lia.
    + repeat split.
      * rewrite promises_app. lia.
      * rewrite promise_state_of_app, Hpending. simpl.
        destruct (Nat.eqb_spec (promises w) p); [lia | reflexivity].
      * rewrite registered_app. simpl. rewrite app_nil_r. exact Hothers.
Qed.

Lemma in_flight_run (E : env) (p : nat) (q : string) (actions : list action) (w : world) :
  in_flight p q w -> Forall (elsewhere q) actions -> in_flight p q (run E w actions).
Proof.
  revert w. induction actions as [| a actions IH]; intros w Hw Hactions; simpl;
    [exact Hw |].
  inversion Hactions as [| a' actions' Ha Hrest]; subst.
  apply IH; [apply in_flight_step; assumption | exact Hrest].
Qed.

Lemma step_call_on_channel (E : env) (opened : value) (w : world) (id q : string)
    (message : value) :
  channel E = Some opened ->
  step E w (CallSendRPCMessage id q message)
  = w ++ events (sendRPCMessage (promises w) id q message).
Proof. intros Hchannel. simpl. rewrite Hchannel. reflexivity. Qed.

Lemma call_in_flight (E : env) (opened : value) (actions between : list action)
    (id q : string) (message : value) :
  channel E = Some opened ->
  consumer_of q (registered (run E (started E) actions)) = None ->
  Forall (elsewhere q) between ->
  in_flight (promises (run E (started E) actions)) q
    (run E (step E (run E (started E) actions) (CallSendRPCMessage id q message))
       between)
  /\ consumer_of q
       (registered
          (run E (step E (run E (started E) actions) (CallSendRPCMessage id q message))
             between))
     = Some (on_rpc_reply (promises (run E (started E) actions)) id q).
Proof.
  set (w := run E (started E) actions). intros Hchannel Hfresh Hbetween.
  assert (Hw : numbered w) by (apply numbered_run, numbered_started).
  set (p := promises w).
  assert (Hstep : step E w (CallSendRPCMessage id q message)
                  = w ++ events (sendRPCMessage p id q message))
    by (apply (step_call_on_channel E opened); exact Hchannel).
  assert (Hcall : in_flight p q (step E w (CallSendRPCMessage id q message))).
  { rewrite Hstep. repeat split.
    - rewrite promises_app.
      assert (Hone : promises (events (sendRPCMessage p id q message)) = 1)
        by (unfold sendRPCMessage, eval, emit, bind;
            destruct (Buffer_from _); reflexivity).
      lia.
    - rewrite promise_state_of_app, (below_pending p w Hw).
      unfold sendRPCMessage, eval, emit, bind. destruct (Buffer_from _); reflexivity.
    - rewrite registered_app, registered_sendRPCMessage.
      apply Forall_app. split; [| constructor; [now left | constructor]].
      apply Forall_forall. intros [q' c] Hin. right. simpl. intros Hp.
      pose proof (registered_below p w q' c p Hw Hin Hp). lia. }
  split; [apply in_flight_run; assumption |].
  destruct (registered_run E between (step E w (CallSendRPCMessage id q message)))
    as [rs [Hregistered _]].
  rewrite Hregistered, Hstep.
  rewrite registered_app, registered_sendRPCMessage, <- app_assoc. simpl.
  apply consumer_of_fresh. exact Hfresh.
Qed.

(** X24.  No call settles by itself.  In a process whose start-up
    obtained the channel and in which nothing goes wrong (every
    callback comes to its end, every collaborator succeeds), a call on
    a reply queue the broker has just named stays pending, its callback
    registered on that queue, whatever happens elsewhere in between:
    deliveries on the well-known queues, [sendMessage] calls, other RPC
    calls and the replies and cancellations of other reply queues.
    Nothing in the process ever times a call out. *)
Theorem call_pending_until_reply (E : env) (opened : value)
    (actions between : list action) (id q : string) (message : value) :
  channel E = Some opened ->
  undisturbed E (started E) (actions ++ CallSendRPCMessage id q message :: between)
  = true ->
  consumer_of q (registered (run E (started E) actions)) = None ->
  Forall (elsewhere q) between ->
  promise_state_of (promises (run E (started E) actions))
    (run E (started E) (actions ++ CallSendRPCMessage id q message :: between))
  = Pending
  /\ consumer_of q
       (registered
          (run E (started E) (actions ++ CallSendRPCMessage id q message :: between)))
     = Some (on_rpc_reply (promises (run E (started E) actions)) id q).
Proof.
  intros Hchannel _ Hfresh Hbetween.
  destruct (call_in_flight E opened actions between id q message
              Hchannel Hfresh Hbetween)
    as [[_ [Hpending _]] Hconsumer].
  unfold run in *. rewrite fold_left_app.
  change (fold_left (step E) (CallSendRPCMessage id q message :: between)
            (fold_left (step E) actions (started E)))
    with (fold_left (step E) between
            (step E (fold_left (step E) actions (started E))
               (CallSendRPCMessage id q message))).
  split; assumption.
Qed.

Lemma call_pending_until_reply_witness :
  promise_state_of 0
    (run Examples.quiet (started Examples.quiet)
       ([Deliver "callPublish"
           (Some (Examples.plain 1
                    (Examples.text (VObj [("name", VStr "fooEvent");
                                          ("data", VNull)]))))]
        ++ CallSendRPCMessage "c-1" "amq.gen-A" (VObj [("op", VStr "ping")])
        :: [Deliver "integrationsNotification" (Some (Examples.plain 2 "{}"));
            CallSendRPCMessage "c-2" "amq.gen-B" VNull;
            Deliver "amq.gen-B" (Some (Examples.reply 3 "c-2" Examples.pong));
            CallSendMessage "callPublish" VUndefined]))
  = Pending.
Proof.
  apply (proj1 (call_pending_until_reply Examples.quiet VUndefined
                  [Deliver "callPublish"
                     (Some (Examples.plain 1
                              (Examples.text (VObj [("name", VStr "fooEvent");
                                                    ("data", VNull)]))))]
                  [Deliver "integrationsNotification" (Some (Examples.plain 2 "{}"));
                   CallSendRPCMessage "c-2" "amq.gen-B" VNull;
                   Deliver "amq.gen-B" (Some (Examples.reply 3 "c-2" Examples.pong));
                   CallSendMessage "callPublish" VUndefined]
                  "c-1" "amq.gen-A" (VObj [("op", VStr "ping")])
                  eq_refl
                  ltac:(vm_compute; reflexivity)
                  ltac:(vm_compute; reflexivity)
                  ltac:(repeat constructor; simpl; discriminate))).
Defined.

(** X25.  A call is settled by its own reply.  In a process whose
    start-up obtained the channel and in which nothing goes wrong, a
    call on a freshly named reply queue, then anything elsewhere, then
    a reply on that queue with the correlation id of the call that
    decodes to a 'success': the promise of the call is resolved with
    the data of the reply, and the reply queue is deleted. *)
Theorem call_resolved_by_its_reply (E : env) (opened : value)
    (actions between : list action)
    (id q : string) (request : value) (msg : message) (res data : value) :
  channel E = Some opened ->
  undisturbed E (started E)
    (actions ++ CallSendRPCMessage id q request :: between ++ [Deliver q (Some msg)])
  = true ->
  consumer_of q (registered (run E (started E) actions)) = None ->
  Forall (elsewhere q) between ->
  correlationId (properties msg) = Some id ->
  JSON_parse E (content msg) = Ok res ->
  get res "status" = Ok (VStr "success") ->
  get res "data" = Ok data ->
  promise_state_of (promises (run E (started E) actions))
    (run E (started E)
       (actions ++ CallSendRPCMessage id q request :: between
        ++ [Deliver q (Some msg)]))
  = Resolved data
  /\ In q (deleted_queues
             (run E (started E)
                (actions ++ CallSendRPCMessage id q request :: between
                 ++ [Deliver q (Some msg)]))).
Proof.
  intros Hchannel _ Hfresh Hbetween Hid Hparse Hstatus Hdata.
  destruct (call_in_flight E opened actions between id q request
              Hchannel Hfresh Hbetween)
    as [[_ [Hpending _]] Hconsumer].
  assert (Hsame : same_string (correlationId (properties msg)) id = true)
    by (rewrite Hid; simpl; apply String.eqb_refl).
  set (w := run E (started E) actions) in *.
  set (w' := run E (step E w (CallSendRPCMessage id q request)) between) in *.
  assert (Hsplit : run E (started E)
                     (actions ++ CallSendRPCMessage id q request :: between
                      ++ [Deliver q (Some msg)])
                   = deliver E q (Some msg) w').
  { unfold run. rewrite fold_left_app.
    change (fold_left (step E)
              (CallSendRPCMessage id q request :: between ++ [Deliver q (Some msg)])
              (fold_left (step E) actions (started E)))
      with (fold_left (step E) (between ++ [Deliver q (Some msg)])
              (step E (fold_left (step E) actions (started E))
                 (CallSendRPCMessage id q request))).
    rewrite fold_left_app. reflexivity. }
  rewrite Hsplit. unfold deliver. rewrite Hconsumer.
  change (run_consumer E (on_rpc_reply (promises w) id q) (Some msg))
    with (rpc_reply E (promises w) id q (Some msg)).
  assert (Hrun : events (rpc_reply E (promises w) id q (Some msg))
                 = [EResolve (promises w) data; EDeleteQueue q]).
  { unfold rpc_reply. rewrite Hsame. run_with Hparse. run_with Hstatus.
    simpl strict_eq_str. cbv iota. run_with Hdata. reflexivity. }
  rewrite Hrun. split.
  - rewrite promise_state_of_app, Hpending. simpl. now rewrite Nat.eqb_refl.
  - rewrite deleted_queues_app. apply in_or_app. right. simpl. now left.
Qed.

Lemma call_resolved_by_its_reply_witness :
  promise_state_of 0
    (run Examples.quiet (started Examples.quiet)
       ([] ++ CallSendRPCMessage "c-1" "amq.gen-A" (VObj [("op", VStr "ping")])
        :: [CallSendRPCMessage "c-2" "amq.gen-B" VNull;
            Deliver "amq.gen-B" None]
        ++ [Deliver "amq.gen-A" (Some (Examples.reply 4 "c-1" Examples.pong))]))
  = Resolved (VStr "pong").
Proof.
  apply (proj1 (call_resolved_by_its_reply Examples.quiet VUndefined []
                  [CallSendRPCMessage "c-2" "amq.gen-B" VNull;
                   Deliver "amq.gen-B" None]
                  "c-1" "amq.gen-A" (VObj [("op", VStr "ping")])
                  (Examples.reply 4 "c-1" Examples.pong) Examples.pong (VStr "pong")
                  eq_refl
                  ltac:(vm_compute; reflexivity)
                  eq_refl
                  ltac:(repeat constructor; simpl; discriminate)
                  eq_refl ltac:(vm_compute; reflexivity) eq_refl eq_refl)).
Defined.

(** X26.  A request the RPC handler answers with nothing.  When
    [receiveRpcMessage] returns [undefined] (or fails), the callback of
    the RPC queue stops after the handler: no reply is published and the
    request is not acknowledged, so the caller is never answered. *)
Theorem rpc_queue_without_response (E : env) (msg : message) (payload : value) :
  JSON_parse E (content msg) = Ok payload ->
  extern E receiveRpcMessage [payload] = Ok VUndefined \/
  (exists e, extern E receiveRpcMessage [payload] = Throw e) ->
  events (rpc_queue E (Some msg))
  = [ECall debugBase [VStr ("Received rpc queue message " ++ content msg)%string];
     ECall receiveRpcMessage [payload]]
  /\ exists e, result (rpc_queue E (Some msg)) = Throw e.
Proof.
  intros Hparse Hhandler.
  unfold rpc_queue, fire, call, eval, emit, bind. rewrite Hparse.
  destruct Hhandler as [Hnone | [e Hfails]].
  - rewrite Hnone. simpl. split; [reflexivity | eexists; reflexivity].
  - rewrite Hfails. simpl. split; [reflexivity | eexists; reflexivity].
Qed.

Lemma rpc_queue_without_response_witness :
  events (rpc_queue Scenarios.under_test
            (Some (Examples.request 5 "c-9" "amq.gen-Z" (VObj [("action", VStr "noop")]))))
  = [ECall debugBase
       [VStr ("Received rpc queue message "
              ++ Examples.text (VObj [("action", VStr "noop")]))%string];
     ECall receiveRpcMessage [VObj [("action", VStr "noop")]]].
Proof.
  refine (proj1 (rpc_queue_without_response Scenarios.under_test
                   (Examples.request 5 "c-9" "amq.gen-Z" (VObj [("action", VStr "noop")]))
                   (VObj [("action", VStr "noop")]) _ _)).
  - vm_compute. reflexivity.
  - left. reflexivity.
Defined.
